(** * OgbujiPT: prompt styles, table-name validation and LLM wrappers

    A shallow embedding of three modules of the library,

    - [ogbujipt.model_style.alvic]  (prompt templates, [make_prompt]),
    - [ogbujipt.embedding.pgvector] (the constructor of [PGVectorHelper]),
    - [ogbujipt.llm_wrapper]        (the OpenAI-compatible wrappers),

    together with the properties of their behaviour.  Python values are
    modelled by the type [pyval], dictionaries by finite maps, raised
    exceptions by the error side of a result type, and the methods of the
    wrapper classes by functions in a state-and-exception monad over the
    wrapper object and the process-wide client configuration. *)

From Stdlib Require Import String Ascii ZArith List Bool Lia.
From stdpp Require Import base option gmap strings list.

#[local] Open Scope string_scope.
#[local] Set Warnings "-register-all".

(* ===================================================================== *)
(** * Python values, exceptions and built-in operations                   *)
(* ===================================================================== *)

Module Py.

(** The members of [class sub_style(Enum)] of the [alvic] module.  They are
    Python objects like any other and may be passed wherever a value is
    expected, so they are part of [pyval]. *)
Inductive sub_style : Type :=
| ALPACA            (* = 1 *)
| ALPACA_INSTRUCT   (* = 2 *)
| VICUNA.           (* = 3 *)

(** The universe of Python values the modelled code handles: JSON data
    (responses, keyword arguments), enumeration members and logger objects.
    Dictionaries have string keys, as JSON objects and keyword bags do. *)
Inductive pyval : Type :=
| VNone
| VBool (b : bool)
| VInt (z : Z)
| VStr (s : string)
| VList (l : list pyval)
| VDict (d : gmap string pyval)
| VSubStyle (s : sub_style)
| VLogger (name : string).

(** Exceptions.  Those raised by the source carry the arguments they are
    built with; for those raised by the interpreter only the class (and the
    key, for [KeyError]) is kept.  [UpstreamError] stands for any failure
    raised inside an external dependency; [Unsupported] marks Python
    behaviour that lies outside the fragment modelled here. *)
Inductive exn : Type :=
| ValueError (args : list pyval)
| RuntimeError (args : list pyval)
| KeyError (key : pyval)
| IndexError
| TypeError
| AttributeError
| StopIteration
| UpstreamError (what : string)
| Unsupported (what : string).

Inductive result (A : Type) : Type :=
| Ok (a : A)
| Err (e : exn).
Arguments Ok {A} a.
Arguments Err {A} e.

#[export] Instance result_ret : MRet result := fun A a => Ok a.
#[export] Instance result_bind : MBind result :=
  fun A B f r => match r with Ok a => f a | Err e => Err e end.
#[export] Instance result_fmap : FMap result :=
  fun A B f r => match r with Ok a => Ok (f a) | Err e => Err e end.

(** Truth value of an object, as [if x], [not x] and [x or y] test it. *)
Definition truthy (v : pyval) : bool :=
  match v with
  | VNone => false
  | VBool b => b
  | VInt z => negb (z =? 0)%Z
  | VStr s => negb (String.eqb s "")
  | VList l => negb (Nat.eqb (length l) 0)
  | VDict d => negb (Nat.eqb (size d) 0)
  | VSubStyle _ => true
  | VLogger _ => true
  end.

(** [x == 'literal']: only a [str] with the same characters is equal to a
    string literal. *)
Definition eq_str (v : pyval) (s : string) : bool :=
  match v with
  | VStr s' => String.eqb s' s
  | _ => false
  end.

(** [x == member] for a member of a plain [Enum]: identity of members. *)
Definition sub_style_eqb (a b : sub_style) : bool :=
  match a, b with
  | ALPACA, ALPACA | ALPACA_INSTRUCT, ALPACA_INSTRUCT | VICUNA, VICUNA => true
  | _, _ => false
  end.

Definition eq_member (v : pyval) (m : sub_style) : bool :=
  match v with
  | VSubStyle s => sub_style_eqb s m
  | _ => false
  end.

(** ** Strings

    A [str] is a sequence of code points; the model covers the code points
    U+0000 to U+00FF, one [ascii] each. *)

Definition code (c : ascii) : N := N_of_ascii c.

Definition in_range (lo hi : N) (c : ascii) : bool :=
  ((lo <=? code c) && (code c <=? hi))%N.

(** The character predicates of [str], on U+0000..U+00FF, as the Unicode
    database of CPython classifies them. *)
Definition char_isalpha (c : ascii) : bool :=
  in_range 65 90 c || in_range 97 122 c
  || in_range 170 170 c || in_range 181 181 c || in_range 186 186 c
  || in_range 192 214 c || in_range 216 246 c || in_range 248 255 c.

Definition char_isdecimal (c : ascii) : bool := in_range 48 57 c.

Definition char_isdigit (c : ascii) : bool :=
  in_range 48 57 c || in_range 178 179 c || in_range 185 185 c.

Definition char_isnumeric (c : ascii) : bool :=
  char_isdigit c || in_range 188 190 c.

Definition char_isalnum (c : ascii) : bool :=
  char_isalpha c || char_isdecimal c || char_isdigit c || char_isnumeric c.

Fixpoint forall_chars (p : ascii -> bool) (s : string) : bool :=
  match s with
  | EmptyString => true
  | String c s' => p c && forall_chars p s'
  end.

(** [s.isalnum()]: every character is alphanumeric and there is at least
    one character. *)
Definition isalnum (s : string) : bool :=
  match s with
  | EmptyString => false
  | _ => forall_chars char_isalnum s
  end.

(** [s.replace(old, new)] for a one-character [old]. *)
Fixpoint replace (old : ascii) (new : string) (s : string) : string :=
  match s with
  | EmptyString => EmptyString
  | String c s' =>
      if Ascii.eqb c old then new ++ replace old new s'
      else String c (replace old new s')
  end.

(** ** [str.format] with keyword arguments

    The fragment modelled: literal text, the escapes of a doubled brace, and
    replacement fields [{name}] that hold a plain keyword name and are
    looked up among string-valued keyword arguments.  The substituted values
    are copied, never scanned again.  Fields with a conversion, a format
    specification, an attribute or an index are outside the fragment. *)
Inductive fmt_mode : Type :=
| FText                       (* copying literal text *)
| FOpen                       (* just read an opening brace *)
| FField (name : string)      (* inside a replacement field *)
| FClose.                     (* just read a closing brace in literal text *)

Definition plain_name_char (c : ascii) : bool :=
  negb (Ascii.eqb c "." || Ascii.eqb c "[" || Ascii.eqb c "!" || Ascii.eqb c ":")%char.

Definition lookup_field (name : string) (kw : gmap string string) : result string :=
  if String.eqb name "" || forall_chars char_isdecimal name
  then Err IndexError            (* a positional field, and no positional argument *)
  else match kw !! name with
       | Some v => Ok v
       | None => Err (KeyError (VStr name))
       end.

Fixpoint format_from (mode : fmt_mode) (tmpl : string) (kw : gmap string string)
  : result string :=
  match tmpl with
  | EmptyString =>
      match mode with
      | FText => Ok EmptyString
      | FOpen => Err (ValueError [VStr "Single '{' encountered in format string"])
      | FField _ => Err (ValueError [VStr "expected '}' before end of string"])
      | FClose => Err (ValueError [VStr "Single '}' encountered in format string"])
      end
  | String c rest =>
      match mode with
      | FText =>
          if Ascii.eqb c "{" then format_from FOpen rest kw
          else if Ascii.eqb c "}" then format_from FClose rest kw
          else String c <$> format_from FText rest kw
      | FOpen =>
          if Ascii.eqb c "{" then String c <$> format_from FText rest kw
          else if Ascii.eqb c "}" then
            v ← lookup_field "" kw; r ← format_from FText rest kw; Ok (v ++ r)
          else if plain_name_char c then format_from (FField (String c "")) rest kw
          else Err (Unsupported "replacement field")
      | FField name =>
          if Ascii.eqb c "}" then
            v ← lookup_field name kw; r ← format_from FText rest kw; Ok (v ++ r)
          else if Ascii.eqb c "{" then
            Err (ValueError [VStr "unexpected '{' in field name"])
          else if plain_name_char c then format_from (FField (name ++ String c "")) rest kw
          else Err (Unsupported "replacement field")
      | FClose =>
          if Ascii.eqb c "}" then String c <$> format_from FText rest kw
          else Err (ValueError [VStr "Single '}' encountered in format string"])
      end
  end.

Definition format (tmpl : string) (kw : gmap string string) : result string :=
  format_from FText tmpl kw.

End Py.

(* ===================================================================== *)
(** * ogbujipt.model_style.alvic                                          *)
(* ===================================================================== *)

Module alvic.
Import Py.

Definition ALPACA_PROMPT_TMPL : string :=
"{instru_marker}{instru_inputs}

### Response:
".

Definition VICUNA_PROMPT_TMPL : string :=
"### USER:

{query}

### ASSISTANT:
".

(** [make_prompt(msg, inputs='', sub=sub_style.ALPACA)].  The selector [sub]
    is whatever object the caller passes. *)
Definition make_prompt (msg : string) (inputs : string) (sub : pyval) : result string :=
  if eq_member sub ALPACA || eq_member sub ALPACA_INSTRUCT then
    let cr := "
" in
    let instru_inputs :=
      msg ++ "
" ++ (if truthy (VStr inputs) then "### Inputs:" ++ cr ++ inputs else "") ++ "
" in
    let instru_marker :=
      if eq_member sub ALPACA_INSTRUCT then "### Instruction:

" else "" in
    format ALPACA_PROMPT_TMPL
      (<["instru_marker" := instru_marker]> (<["instru_inputs" := instru_inputs]> ∅))
  else if eq_member sub VICUNA then
    format VICUNA_PROMPT_TMPL (<["query" := msg]> ∅)
  else
    Err (ValueError [VStr "Prompt substyle should be Alpaca or Vicuna, not "; sub]).

End alvic.

(* ===================================================================== *)
(** * ogbujipt.embedding.pgvector: the constructor of PGVectorHelper       *)
(* ===================================================================== *)

Module pgvector.
Import Py.

(** An asyncpg connection, known to the helper only as a handle. *)
Inductive connection : Type := Conn (handle : nat).

(** The [embedding_model] argument: [None], or an object with a class name
    and an [encode] method.  Of [encode] the constructor only uses the
    length of the vector returned for a text (or the exception raised). *)
Inductive embedding_model : Type :=
| NoModel
| ModelObject (class_name : string) (encode_len : string -> result nat).

Record PGVectorHelper : Type := mkPGVectorHelper {
  _embedding_model : embedding_model;
  _embed_dimension : nat;
  conn : connection;
  table_name : string
}.

Definition class_name_of (m : embedding_model) : string :=
  match m with
  | NoModel => "NoneType"
  | ModelObject cls _ => cls
  end.

(** [table_name.replace('_', '').isalnum()] *)
Definition table_name_ok (table_name : string) : bool :=
  isalnum (replace "_" "" table_name).

(** [PGVectorHelper.__init__(self, embedding_model, table_name, apg_conn)];
    [PREREQS_AVAILABLE] is the module-level flag set when asyncpg and
    pgvector were imported. *)
Definition __init__ (PREREQS_AVAILABLE : bool)
    (embedding_model : embedding_model) (table_name : string) (apg_conn : connection)
  : result PGVectorHelper :=
  if negb PREREQS_AVAILABLE then
    Err (RuntimeError [VStr "pgvector not installed, you can run `pip install pgvector asyncpg`"])
  else if negb (table_name_ok table_name) then
    Err (ValueError [VStr "table_name must be alphanumeric, with underscore also allowed"])
  else
    (* (class name == 'SentenceTransformer') and (not None) *)
    if String.eqb (class_name_of embedding_model) "SentenceTransformer" && negb (truthy VNone) then
      match embedding_model with
      | ModelObject _ encode_len =>
          dim ← encode_len "";
          Ok (mkPGVectorHelper embedding_model dim apg_conn table_name)
      | NoModel => Err AttributeError
      end
    else
      match embedding_model with
      | NoModel => Ok (mkPGVectorHelper NoModel 0 apg_conn table_name)
      | _ => Err (ValueError [VStr "embedding_model must be a SentenceTransformer object or None"])
      end.

End pgvector.

(* ===================================================================== *)
(** * ogbujipt.llm_wrapper: the OpenAI-compatible wrappers                *)
(* ===================================================================== *)

Module llm_wrapper.
Import Py.

(** ** Built-in operations on objects *)

(** [len(x)] *)
Definition len (v : pyval) : result nat :=
  match v with
  | VStr s => Ok (String.length s)
  | VList l => Ok (length l)
  | VDict d => Ok (size d)
  | _ => Err TypeError
  end.

(** Indexing a sequence of [n] items by the integer [i]: the position, when
    in range; negative indices count from the end. *)
Definition position (n : nat) (i : Z) : option nat :=
  if (0 <=? i)%Z && (i <? Z.of_nat n)%Z then Some (Z.to_nat i)
  else if (i <? 0)%Z && (- Z.of_nat n <=? i)%Z then Some (Z.to_nat (Z.of_nat n + i))
  else None.

Definition index_of (key : pyval) : option Z :=
  match key with
  | VInt i => Some i
  | VBool b => Some (if b then 1 else 0)%Z
  | _ => None
  end.

Definition hashable (key : pyval) : bool :=
  match key with
  | VList _ | VDict _ => false
  | _ => true
  end.

Fixpoint string_nth (s : string) (i : nat) : option ascii :=
  match s, i with
  | EmptyString, _ => None
  | String c _, O => Some c
  | String _ s', S i' => string_nth s' i'
  end.

(** [obj[key]] *)
Definition getitem (obj key : pyval) : result pyval :=
  match obj with
  | VDict d =>
      match key with
      | VStr k =>
          match d !! k with
          | Some v => Ok v
          | None => Err (KeyError key)
          end
      | _ => if hashable key then Err (KeyError key) else Err TypeError
      end
  | VList l =>
      match index_of key with
      | Some i =>
          match position (length l) i ≫= (l !!.) with
          | Some v => Ok v
          | None => Err IndexError
          end
      | None => Err TypeError
      end
  | VStr s =>
      match index_of key with
      | Some i =>
          match position (String.length s) i ≫= string_nth s with
          | Some c => Ok (VStr (String c EmptyString))
          | None => Err IndexError
          end
      | None => Err TypeError
      end
  | _ => Err TypeError
  end.

(** The items [iter(obj)] yields.  (The keys of a dictionary come in the
    order of the finite map, not in insertion order.) *)
Definition iter (obj : pyval) : result (list pyval) :=
  match obj with
  | VList l => Ok l
  | VDict d => Ok ((fun kv => VStr (fst kv)) <$> map_to_list d)
  | VStr s => Ok ((fun c => VStr (String c EmptyString)) <$> list_ascii_of_string s)
  | _ => Err TypeError
  end.

(** [obj.get(key)] of a mapping, with the default [None]. *)
Definition get (obj : pyval) (key : string) : result pyval :=
  match obj with
  | VDict d => Ok (default VNone (d !! key))
  | _ => Err AttributeError
  end.

(** [obj[key] = v] on a mapping. *)
Definition setitem (obj : pyval) (key : string) (v : pyval) : result pyval :=
  match obj with
  | VDict d => Ok (VDict (<[key := v]> d))
  | _ => Err TypeError
  end.

(** The keyword arguments of a call [f(k1=v1, ..., **d1, **d2, ...)]: the
    explicit keywords first, then each unpacked mapping in turn; a keyword
    given twice is a [TypeError]. *)
Fixpoint unpack_keywords (acc : gmap string pyval) (unpacked : list (gmap string pyval))
  : result (gmap string pyval) :=
  match unpacked with
  | [] => Ok acc
  | d :: rest =>
      if decide (acc ##ₘ d) then unpack_keywords (acc ∪ d) rest
      else Err TypeError
  end.

(** ** The wrapper object and its surroundings *)

Definition OPENAI_GLOBALS : list string :=
  ["api_key"; "api_key_path"; "api_base"; "organization"; "api_type"; "api_version";
   "proxy"; "app_info"; "debug"; "log"].

(** The attributes of an [openai_api] (or [openai_chat_api]) instance. *)
Record openai_api : Type := mk_openai_api {
  model : pyval;
  original_model : pyval;
  parameters : gmap string pyval;
  api_key : string;
  api_base : string
}.

(** What a call can change: the wrapper object [self], the attributes of
    the [openai] module ([openai_api_global]), and the messages handed to
    loggers. *)
Record world : Type := mk_world {
  self : openai_api;
  openai_api_global : gmap string pyval;
  logged : list (string * string)
}.

(** A completion function of the API, [Completion.create] or a function
    passed as [api_func]: from the client configuration in force and the
    keyword arguments of the call to a response or a failure. *)
Definition api_function : Type :=
  gmap string pyval -> gmap string pyval -> result pyval.

(** The external capabilities: whether [httpx] can be imported, what
    [httpx.get(url).json()] gives, and the two functions of the client. *)
Record environment : Type := mk_environment {
  httpx_installed : bool;
  httpx_get_json : string -> result pyval;
  Completion_create : api_function;
  ChatCompletion_create : api_function
}.

(** ** State and exceptions *)

Inductive outcome (A : Type) : Type :=
| Returned (a : A) (w : world)
| Raised (e : exn) (w : world).
Arguments Returned {A} a w.
Arguments Raised {A} e w.

Definition M (A : Type) : Type := world -> outcome A.

#[export] Instance M_ret : MRet M := fun A a w => Returned a w.
#[export] Instance M_bind : MBind M :=
  fun A B f m w =>
    match m w with
    | Returned a w' => f a w'
    | Raised e w' => Raised e w'
    end.

Definition raise {A : Type} (e : exn) : M A := fun w => Raised e w.

Definition lift {A : Type} (r : result A) : M A :=
  fun w => match r with Ok a => Returned a w | Err e => Raised e w end.

Definition get_self : M openai_api := fun w => Returned (self w) w.

Definition get_global : M (gmap string pyval) :=
  fun w => Returned (openai_api_global w) w.

(** [self.model = v] *)
Definition set_model (v : pyval) : M unit :=
  fun w =>
    let s := self w in
    Returned tt
      (mk_world (mk_openai_api v (original_model s) (parameters s) (api_key s) (api_base s))
                (openai_api_global w) (logged w)).

(** [setattr(openai_api_global, k, v)] *)
Definition setattr_global (k : string) (v : pyval) : M unit :=
  fun w => Returned tt (mk_world (self w) (<[k := v]> (openai_api_global w)) (logged w)).

(** [lg.debug(msg)] *)
Definition debug (lg : pyval) (msg : string) : M unit :=
  match lg with
  | VLogger name => fun w =>
      Returned tt (mk_world (self w) (openai_api_global w) (logged w ++ [(name, msg)]))
  | _ => raise AttributeError
  end.

(** [f(k1=v1, ..., **d1, ...)] for an API function [f]. *)
Definition call (f : api_function) (named : list (string * pyval))
    (unpacked : list (gmap string pyval)) : M pyval :=
  kw ← lift (unpack_keywords (list_to_map named) unpacked);
  g ← get_global;
  lift (f g kw).

Fixpoint for_each {A : Type} (l : list A) (body : A -> M unit) : M unit :=
  match l with
  | [] => mret tt
  | x :: rest => body x ;; for_each rest body
  end.

Section methods.

(** The built-ins [repr] and [str] on objects. *)
Variable repr : pyval -> string.
Variable str : pyval -> string.

Variable E : environment.

(** [openai_api.available_models(self)] *)
Definition available_models : M pyval :=
  if negb (httpx_installed E) then
    raise (RuntimeError [VStr "Needs httpx installed. Try pip install httpx"])
  else
    s ← get_self;
    resp ← lift (httpx_get_json E (api_base s ++ "/models"));
    (* next(iter((i['id'] for i in resp['data']))) *)
    data ← lift (getitem resp (VStr "data"));
    items ← lift (iter data);
    match items with
    | [] => raise StopIteration
    | i :: _ => lift (getitem i (VStr "id"))
    end.

(** [openai_api.hosted_model(self)] *)
Definition hosted_model : M pyval :=
  models ← available_models;
  n ← lift (len models);
  if Nat.ltb 1 n then mret models
  else s ← get_self; mret (model s).

(** [openai_api._claim_global_context(self)] *)
Definition _claim_global_context : M unit :=
  for_each OPENAI_GLOBALS (fun k =>
    s ← get_self;
    match parameters s !! k with
    | Some v => setattr_global k v
    | None => mret tt
    end) ;;
  s ← get_self;
  setattr_global "model" (model s) ;;
  setattr_global "api_key" (VStr (api_key s)) ;;
  setattr_global "api_base" (VStr (api_base s)) ;;
  if negb (truthy (original_model s)) then
    m ← hosted_model;
    set_model m ;;
    s ← get_self;
    match parameters s !! "logger" with
    | Some lg =>
        debug lg ("Switching global context to query LLM hosted at " ++ api_base s
                  ++ ", model " ++ str (model s))
    | None => mret tt
    end
  else mret tt.

(** [openai_api.__call__(self, prompt, api_func=None, **kwargs)] *)
Definition openai_api__call__ (prompt : string) (api_func : option api_function)
    (kwargs : gmap string pyval) : M pyval :=
  let api_func := default (Completion_create E) api_func in
  _claim_global_context ;;
  s ← get_self;
  let merged_kwargs := kwargs ∪ parameters s in   (* {**self.parameters, **kwargs} *)
  result ← call api_func [("model", model s); ("prompt", VStr prompt)] [merged_kwargs];
  reported ← lift (get result "model");
  if eq_str reported "HOSTED_MODEL" then
    s ← get_self;
    lift (setitem result "model" (model s))
  else mret result.

(** [openai_chat_api.__call__(self, messages, api_func=None, **kwargs)] *)
Definition openai_chat_api__call__ (messages : pyval) (api_func : option api_function)
    (kwargs : gmap string pyval) : M pyval :=
  let api_func := default (ChatCompletion_create E) api_func in
  _claim_global_context ;;
  s ← get_self;
  call api_func [("model", model s); ("messages", messages)] [parameters s; kwargs].

(** [openai_api.first_choice_text(self, response)] *)
Definition first_choice_text (response : pyval) : result pyval :=
  match
    choices ← getitem response (VStr "choices");
    first ← getitem choices (VInt 0);
    getitem first (VStr "text")
  with
  | Err (KeyError _) =>
      Err (RuntimeError [VStr
        ("Response does not appear to be an OpenAI API completion structure, as expected:
" ++ repr response)])
  | r => r
  end.

(** [openai_chat_api.first_choice_message(self, response)] *)
Definition first_choice_message (response : pyval) : result pyval :=
  match
    choices ← getitem response (VStr "choices");
    first ← getitem choices (VInt 0);
    message ← getitem first (VStr "message");
    getitem message (VStr "content")
  with
  | Err (KeyError _) =>
      Err (RuntimeError [VStr
        ("Response does not appear to be an OpenAI API chat-style completion structure, as expected:
" ++ repr response)])
  | r => r
  end.

End methods.

End llm_wrapper.

(* ===================================================================== *)
(** * Vocabulary of the statements and concrete inputs                    *)
(* ===================================================================== *)

Module fixtures.
Import Py pgvector llm_wrapper.

(** The newline character, as a string. *)
Definition nl : string := String "010" EmptyString.

(** The characters of a string, and the two properties of a table name
    that decide its validation. *)
Definition chars (s : string) : list ascii := list_ascii_of_string s.

Definition only_word_chars (s : string) : Prop :=
  forall c, In c (chars s) -> char_isalnum c = true \/ c = "_"%char.

Definition some_char_not_underscore (s : string) : Prop :=
  exists c, In c (chars s) /\ c <> "_"%char.

Definition table_name_message : string :=
  "table_name must be alphanumeric, with underscore also allowed".

(** The three named styles, as selector values. *)
Definition named_style (sub : pyval) : Prop := exists s, sub = VSubStyle s.

(** The settings of a wrapper that a call has no reason to touch. *)
Definition same_settings (s s' : openai_api) : Prop :=
  original_model s' = original_model s
  /\ parameters s' = parameters s
  /\ api_key s' = api_key s
  /\ api_base s' = api_base s.

(** The world an outcome leaves behind. *)
Definition world_of {A : Type} (o : outcome A) : world :=
  match o with
  | Returned _ w => w
  | Raised _ w => w
  end.

(** Stand-ins for the built-ins [str] and [repr], for the concrete runs. *)
Definition plain_str (v : pyval) : string :=
  match v with
  | VStr s => s
  | VNone => "None"
  | _ => "<object>"
  end.

Definition plain_repr (v : pyval) : string := "<response>".

(** API functions for the concrete runs: one that answers with a fixed
    response, one that answers with the keyword arguments it received, and
    one that fails. *)
Definition stub_api (response : pyval) : api_function := fun _ _ => Ok response.
Definition echo_api : api_function := fun _ kw => Ok (VDict kw).
Definition failing_api : api_function :=
  fun _ _ => Err (UpstreamError "connection refused").

(** An endpoint whose model listing is [listing] and whose completion
    functions are [f]. *)
Definition endpoint (listing : pyval) (f : api_function) : environment :=
  mk_environment true (fun _ => Ok listing) f f.

Definition listing_of (ids : list string) : pyval :=
  VDict {[ "data" := VList ((fun i => VDict {[ "id" := VStr i ]}) <$> ids) ]}.

Definition hosted_response : pyval :=
  VDict (<["model" := VStr "HOSTED_MODEL"]>
         {[ "choices" := VList [VDict {[ "text" := VStr "Who is there?" ]}] ]}).

Definition knock_knock_chat : pyval :=
  VList [VDict (<["role" := VStr "user"]> {[ "content" := VStr "Knock knock!" ]})].

(** A wrapper built with an explicit model name, and one built without. *)
Definition pinned_wrapper (params : gmap string pyval) : world :=
  mk_world (mk_openai_api (VStr "my-model") (VStr "my-model") params
                          "dummy-key" "http://localhost:8000/v1")
           ∅ [].

Definition unpinned_wrapper : world :=
  mk_world (mk_openai_api (VStr "old-model") VNone ∅
                          "dummy-key" "http://localhost:8000/v1")
           ∅ [].

(** What the loop over [OPENAI_GLOBALS] makes of the client configuration
    [g]: each recognised key found among the parameters is copied. *)
Definition mirror_parameters (params g : gmap string pyval) (keys : list string)
  : gmap string pyval :=
  foldl (fun g k => match params !! k with Some v => <[k := v]> g | None => g end) g keys.

(** The client configuration once the wrapper [s] has claimed it. *)
Definition claimed_global (s : openai_api) (g : gmap string pyval) : gmap string pyval :=
  <["api_base" := VStr (api_base s)]>
    (<["api_key" := VStr (api_key s)]>
       (<["model" := model s]>
          (mirror_parameters (parameters s) g OPENAI_GLOBALS))).

(** The world after a wrapper with a model of its own has claimed the
    client configuration. *)
Definition after_claim (w : world) : world :=
  mk_world (self w) (claimed_global (self w) (openai_api_global w)) (logged w).

(** The response of [hosted_response] with the model name filled in. *)
Definition named_response : pyval :=
  VDict (<["model" := VStr "my-model"]>
         {[ "choices" := VList [VDict {[ "text" := VStr "Who is there?" ]}] ]}).

(** A response whose list of choices is empty. *)
Definition no_choices : pyval := VDict {[ "choices" := VList [] ]}.

(** The world after a wrapper without a model of its own has claimed the
    client configuration and adopted the hosted model [m]. *)
Definition after_refresh (w : world) (m : pyval) : world :=
  mk_world (mk_openai_api m (original_model (self w)) (parameters (self w))
                          (api_key (self w)) (api_base (self w)))
           (claimed_global (self w) (openai_api_global w)) (logged w).

(** The keyword arguments of the request of a completion call and of a
    chat call, as the two [__call__] methods assemble them. *)
Definition completion_request (prompt : string) (kwargs : gmap string pyval)
    (s : openai_api) : result (gmap string pyval) :=
  unpack_keywords (list_to_map [("model", model s); ("prompt", VStr prompt)])
                  [kwargs ∪ parameters s].

Definition chat_request (messages : pyval) (kwargs : gmap string pyval)
    (s : openai_api) : result (gmap string pyval) :=
  unpack_keywords (list_to_map [("model", model s); ("messages", messages)])
                  [parameters s; kwargs].

(** An invocation reaches the API function [f] and gets the answer [r]
    from it: the configuration was claimed, leaving the world [w1], the
    request [request] was assembled, and [f] answered. *)
Definition api_call_gives (str : pyval -> string) (E : environment)
    (request : openai_api -> result (gmap string pyval)) (f : api_function)
    (w w1 : world) (r : result pyval) : Prop :=
  _claim_global_context str E w = Returned tt w1
  /\ exists kw, request (self w1) = Ok kw /\ f (openai_api_global w1) kw = r.

(** The frame of a call: the settings are kept, and so is the model of a
    wrapper that was given one. *)
Definition wrapper_frame (w w' : world) : Prop :=
  same_settings (self w) (self w')
  /\ (truthy (original_model (self w)) = true -> model (self w') = model (self w)).

End fixtures.

(* ===================================================================== *)
(** * ogbujipt.embedding.pgvector: the helper and its connection          *)
(* ===================================================================== *)

Module pgvector_session.
Import Py pgvector.

Definition CREATE_VECTOR_EXTENSION : string := "CREATE EXTENSION IF NOT EXISTS vector;".

Definition CHECK_TABLE_EXISTS : string :=
"-- Check if a table exists
SELECT EXISTS (
    SELECT FROM pg_tables
    WHERE tablename = $1
);
".

(** What the helper asks of the database driver: [asyncpg.connect(...)],
    and on a connection [execute(sql)], [register_vector(conn)],
    [set_type_codec(typename, encoder=json.dumps, decoder=json.loads,
    schema=...)] and [fetchval(sql, *args)]. *)
Inductive request : Type :=
| Connect (host port user password database : pyval) (conn_params : gmap string pyval)
| Execute (c : connection) (sql : string)
| RegisterVector (c : connection)
| SetTypeCodec (c : connection) (typename schema : string)
| Fetchval (c : connection) (sql : string) (args : list pyval).

(** The database side: what it answers to a request, given the requests
    made so far. *)
Record server : Type := mk_server {
  connect_reply : list request -> request -> result connection;
  reply : list request -> request -> result pyval
}.

(** The awaited calls of a coroutine run one after the other; a session
    keeps the requests made so far. *)
Definition Db (A : Type) : Type := list request -> result A * list request.

#[export] Instance Db_ret : MRet Db := fun A a tr => (Ok a, tr).
#[export] Instance Db_bind : MBind Db :=
  fun A B f m tr =>
    match m tr with
    | (Ok a, tr') => f a tr'
    | (Err e, tr') => (Err e, tr')
    end.

Definition fail {A : Type} (e : exn) : Db A := fun tr => (Err e, tr).

Definition pure_result {A : Type} (r : result A) : Db A := fun tr => (r, tr).

Section helper.

Variable S : server.

(** [PREREQS_AVAILABLE]: whether asyncpg and pgvector were imported; when
    they were not, [asyncpg] is [None] and [register_vector] is a plain
    object. *)
Variable PREREQS_AVAILABLE : bool.

Definition send (r : request) : Db pyval := fun tr => (reply S tr r, (tr ++ [r])%list).


Definition register_vector (c : connection) : Db pyval :=
  if PREREQS_AVAILABLE then send (RegisterVector c) else fail TypeError.

(** [PGVectorHelper.from_connection(cls, embedding_model, table_name, conn)] *)
Definition from_connection (embedding_model : embedding_model) (table_name : string)
    (conn : connection) : Db PGVectorHelper :=
  send (Execute conn "CREATE EXTENSION IF NOT EXISTS vector;") ;;
  register_vector conn ;;
  send (SetTypeCodec conn "JSON" "pg_catalog") ;;
  pure_result (__init__ PREREQS_AVAILABLE embedding_model table_name conn).


(** [PGVectorHelper.count_items(self)] *)
Definition count_items (self : PGVectorHelper) : Db pyval :=
  count ← send (Fetchval (conn self) ("SELECT COUNT(*) FROM " ++ table_name self) []);
  mret count.

(** [PGVectorHelper.table_exists(self)] *)
Definition table_exists (self : PGVectorHelper) : Db pyval :=
  table_exists ← send (Fetchval (conn self) CHECK_TABLE_EXISTS [VStr (table_name self)]);
  mret table_exists.

(** [PGVectorHelper.drop_table(self)] *)
Definition drop_table (self : PGVectorHelper) : Db pyval :=
  send (Execute (conn self) ("DROP TABLE IF EXISTS " ++ table_name self ++ ";")) ;;
  mret VNone.

End helper.

End pgvector_session.

(* ===================================================================== *)
(** * ogbujipt.llm_wrapper: construction, dispatch and chat conversion    *)
(* ===================================================================== *)

Module llm_wrapper_lifecycle.
Import Py llm_wrapper.

(** [prompt_to_chat(prompt)] *)
Definition prompt_to_chat (prompt : string) : pyval :=
  VList [VDict (<["role" := VStr "user"]> (<["content" := VStr prompt]> ∅))].

(** What the constructor takes from outside the module: the placeholder
    key [config.OPENAI_KEY_DUMMY], the base URL the [openai] module had when
    it was imported, the process environment, and the two functions of
    [amara3.iri] on the five components of a URI reference (scheme,
    authority, path, query, fragment). *)
Record host : Type := mk_host {
  OPENAI_KEY_DUMMY : string;
  DEFAULT_OPENAI_API_BASE : string;
  getenv : string -> option string;
  split_uri_ref : string -> pyval * pyval * pyval * pyval * pyval;
  unsplit_uri_ref : pyval * pyval * pyval * pyval * pyval -> result string
}.

(** A new object, before [__init__] has assigned any attribute; an
    attribute not assigned yet shows as [None], an empty mapping or an empty
    string. *)
Definition blank : openai_api := mk_openai_api VNone VNone ∅ "" "".

Definition set_api_key (k : string) : M unit :=
  fun w =>
    let s := self w in
    Returned tt
      (mk_world (mk_openai_api (model s) (original_model s) (parameters s) k (api_base s))
                (openai_api_global w) (logged w)).

Definition set_parameters (p : gmap string pyval) : M unit :=
  fun w =>
    let s := self w in
    Returned tt
      (mk_world (mk_openai_api (model s) (original_model s) p (api_key s) (api_base s))
                (openai_api_global w) (logged w)).

Definition set_api_base (b : string) : M unit :=
  fun w =>
    let s := self w in
    Returned tt
      (mk_world (mk_openai_api (model s) (original_model s) (parameters s) (api_key s) b)
                (openai_api_global w) (logged w)).

Definition set_original_model (v : pyval) : M unit :=
  fun w =>
    let s := self w in
    Returned tt
      (mk_world (mk_openai_api (model s) v (parameters s) (api_key s) (api_base s))
                (openai_api_global w) (logged w)).

(** What the code that awaits a task gets of the work done for it: the
    value the work returned or the exception it raised, or neither.  The
    event loop refuses to set a StopIteration on a future, so a
    StopIteration raised by the work is withheld from the awaiting code:
    the loop reports the refusal to its exception handler and the future
    stays pending (later versions of asyncio set a RuntimeError in place
    of the StopIteration). *)
Inductive awaited (A : Type) : Type :=
| Delivered (r : result A)
| Withheld.
Arguments Delivered {A} r.
Arguments Withheld {A}.

(** [await loop.run_in_executor(executor, work)] with a process pool: the
    forked worker runs the call on its own copy of the wrapper and of the
    client configuration, and the value returned or the exception raised
    is sent back to be set on the future that is awaited.  The wrapper,
    the arguments, the value and the exception are taken to survive the
    trip between the processes as they are. *)
Definition in_worker {A : Type} (m : M A) (w : world) : awaited A :=
  match m w with
  | Returned a _ => Delivered (Ok a)
  | Raised StopIteration _ => Withheld
  | Raised e _ => Delivered (Err e)
  end.

(** [schedule_callable(callable, *args, **kwargs)], as what awaiting it
    gives: the callable applied to those arguments by a worker.  Scheduling
    and time are not part of the model. *)
Definition schedule_callable {Args : Type}
    (callable : Args -> gmap string pyval -> M pyval)
    (args : Args) (kwargs : gmap string pyval) (w : world) : awaited pyval :=
  in_worker (callable args kwargs) w.

Section methods.

Variable str : pyval -> string.
Variable E : environment.
Variable H : host.

(** [openai_api.__init__(self, model=None, api_base=None, api_key=None,
    **kwargs)], run on the new object, in a process where the [openai]
    module was imported. *)
Definition openai_api__init__ (model : pyval) (api_base api_key : option string)
    (kwargs : gmap string pyval) : M unit :=
  let api_key :=
    match api_key with
    | None => default (OPENAI_KEY_DUMMY H) (getenv H "OPENAI_API_KEY")
    | Some k => k
    end in
  set_api_key api_key ;;
  set_parameters kwargs ;;
  base ← match api_base with
         | Some b =>
             if truthy (VStr b) then
               let '(scheme, authority, path, query, fragment) := split_uri_ref H b in
               let path :=
                 if truthy path then path
                 else default (VStr "/v1") (kwargs !! "api_version") in
               lift (unsplit_uri_ref H (scheme, authority, path, query, fragment))
             else mret (DEFAULT_OPENAI_API_BASE H)
         | None => mret (DEFAULT_OPENAI_API_BASE H)
         end;
  set_api_base base ;;
  set_original_model (if truthy model then model else VNone) ;;
  m ← (if truthy model then mret model
       else
         (* self.hosted_model(), while self.model is not assigned yet *)
         models ← available_models E;
         n ← lift (len models);
         if Nat.ltb 1 n then mret models else raise AttributeError);
  set_model m ;;
  _claim_global_context str E.

(** [self(prompt, **keywords)] for a completion wrapper: the binding of
    the keywords to the parameters of [__call__], then the call.  No value
    of [pyval] is callable, so a true value bound to [api_func] fails when
    it is called. *)
Definition openai_api_invoke (prompt : string) (keywords : gmap string pyval) : M pyval :=
  if decide (is_Some (keywords !! "self") \/ is_Some (keywords !! "prompt")) then
    raise TypeError
  else
    match keywords !! "api_func" with
    | None => openai_api__call__ str E prompt None keywords
    | Some v =>
        if truthy v then _claim_global_context str E ;; raise TypeError
        else openai_api__call__ str E prompt None (delete "api_func" keywords)
    end.


(** [openai_api.wrap_for_multiproc(self, prompt, **kwargs)], called while
    an event loop is running; [invoke] is the [__call__] of the class of
    [self].  The method fails at once when the keywords cannot be bound to
    [schedule_callable]; otherwise it returns the task, given here by what
    the code that awaits it gets, and leaves the wrapper and the client
    configuration of the caller alone. *)
Definition wrap_for_multiproc {P : Type} (invoke : P -> gmap string pyval -> M pyval)
    (prompt : P) (kwargs : gmap string pyval) : M (awaited pyval) :=
  s ← get_self;
  let merged_kwargs := kwargs ∪ parameters s in
  (* schedule_callable(self, prompt, **merged_kwargs) *)
  if decide (is_Some (merged_kwargs !! "callable")) then raise TypeError
  else fun w => Returned (schedule_callable invoke prompt merged_kwargs w) w.

End methods.

End llm_wrapper_lifecycle.

(* ===================================================================== *)
(** * Further vocabulary of the statements                                *)
(* ===================================================================== *)

Module vocabulary.
Import Py pgvector llm_wrapper fixtures.

(** How many times a character occurs in a string. *)
Fixpoint count_char (c : ascii) (s : string) : nat :=
  match s with
  | EmptyString => 0
  | String x s' => (if Ascii.eqb x c then 1 else 0) + count_char c s'
  end.

(** The value returned or the exception raised, without the world. *)
Definition value_of {A : Type} (o : outcome A) : result A :=
  match o with
  | Returned a _ => Ok a
  | Raised e _ => Err e
  end.

(** [obj] is a mapping and [key] is not one of its keys. *)
Definition lacks_key (obj key : pyval) : Prop :=
  exists d, obj = VDict d
            /\ match key with
               | VStr k => d !! k = None
               | _ => hashable key = true
               end.

(** Taking the subscripts [path] one after the other, starting from
    [obj], some mapping on the way lacks the key asked of it. *)
Fixpoint key_missing (path : list pyval) (obj : pyval) : Prop :=
  match path with
  | [] => False
  | key :: rest =>
      lacks_key obj key \/ exists v, getitem obj key = Ok v /\ key_missing rest v
  end.

(** [obj[k1][k2]...] for the subscripts [path]. *)
Fixpoint subscripts (path : list pyval) (obj : pyval) : result pyval :=
  match path with
  | [] => Ok obj
  | key :: rest => v ← getitem obj key; subscripts rest v
  end.

(** Another wrapper object of the same process: the client configuration
    and the loggers are shared, the object is [s]. *)
Definition switch_to (s : openai_api) (w : world) : world :=
  mk_world s (openai_api_global w) (logged w).

(** A wrapper that was given a model name. *)
Definition pinned (w : world) : Prop := truthy (original_model (self w)) = true.

(** The first entry of a model listing has the identifier [i]. *)
Definition lists_first (E : environment) (w : world) (i : pyval) : Prop :=
  httpx_installed E = true
  /\ exists d first others,
       httpx_get_json E (api_base (self w) ++ "/models") = Ok (VDict d)
       /\ d !! "data" = Some (VList (VDict first :: others))
       /\ first !! "id" = Some i.

(** The key and the base URL a constructor call settles on. *)
Definition key_of (H : llm_wrapper_lifecycle.host) (key : option string) : string :=
  match key with
  | Some k => k
  | None => default (llm_wrapper_lifecycle.OPENAI_KEY_DUMMY H)
                    (llm_wrapper_lifecycle.getenv H "OPENAI_API_KEY")
  end.

Definition base_of (H : llm_wrapper_lifecycle.host) (base : option string)
    (kwargs : gmap string pyval) : result string :=
  match base with
  | Some b =>
      if truthy (VStr b) then
        let '(scheme, authority, path, query, fragment) :=
          llm_wrapper_lifecycle.split_uri_ref H b in
        llm_wrapper_lifecycle.unsplit_uri_ref H
          (scheme, authority,
           if truthy path then path else default (VStr "/v1") (kwargs !! "api_version"),
           query, fragment)
      else Ok (llm_wrapper_lifecycle.DEFAULT_OPENAI_API_BASE H)
  | None => Ok (llm_wrapper_lifecycle.DEFAULT_OPENAI_API_BASE H)
  end.

(** The new object once the constructor has assigned its attributes, with
    the model [m], before it claims the client configuration. *)
Definition assigned (H : llm_wrapper_lifecycle.host) (m model : pyval) (base : string)
    (key : option string) (kwargs g : gmap string pyval) (logs : list (string * string))
  : world :=
  mk_world (mk_openai_api m (if truthy model then model else VNone) kwargs
                          (key_of H key) base)
           g logs.

(** A host with no key in the environment, and URI functions that keep a
    reference in one piece, as its path. *)
Definition bare_host : llm_wrapper_lifecycle.host :=
  llm_wrapper_lifecycle.mk_host "OPENAI_DUMMY_KEY" "https://api.openai.com/v1"
    (fun _ => None)
    (fun s => (VNone, VNone, VStr s, VNone, VNone))
    (fun parts => match parts with
                  | (_, _, VStr p, _, _) => Ok p
                  | _ => Err TypeError
                  end).

(** A database that accepts every request (and hands out the connection
    [Conn 1]), and one that is down. *)
Definition accepting : pgvector_session.server :=
  pgvector_session.mk_server (fun _ _ => Ok (Conn 1)) (fun _ _ => Ok VNone).

Definition unreachable : pgvector_session.server :=
  pgvector_session.mk_server (fun _ _ => Err (UpstreamError "connection refused"))
                             (fun _ _ => Err (UpstreamError "connection refused")).

End vocabulary.

(* ===================================================================== *)
(** * Properties of the prompt formatter                                  *)
(* ===================================================================== *)

Module alvic_spec.
Import Py alvic fixtures.

Lemma append_cons (x : ascii) (a b : string) : String x a ++ b = String x (a ++ b).
Proof. reflexivity. Qed.

Lemma append_nil_l (b : string) : "" ++ b = b.
Proof. reflexivity. Qed.

Lemma append_assoc (a b c : string) : (a ++ b) ++ c = a ++ (b ++ c).
Proof.
  induction a as [|x a IH]; [reflexivity|].
  rewrite !append_cons. now rewrite IH.
Qed.

(** The optional block of auxiliary inputs. *)
Lemma inputs_block_empty :
  (if truthy (VStr "") then "### Inputs:" ++ nl ++ "" else "") = "".
Proof. reflexivity. Qed.

(** What [format] makes of the Alpaca template, whatever the two values. *)
Lemma format_alpaca (marker body : string) :
  format ALPACA_PROMPT_TMPL (<["instru_marker" := marker]> (<["instru_inputs" := body]> ∅))
  = Ok (marker ++ body ++ nl ++ nl ++ "### Response:" ++ nl).
Proof. vm_compute. reflexivity. Qed.

(** What [format] makes of the Vicuna template, whatever the query: the
    value is copied as it is, braces included. *)
Lemma format_vicuna (query : string) :
  format VICUNA_PROMPT_TMPL (<["query" := query]> ∅)
  = Ok ("### USER:" ++ nl ++ nl ++ query ++ nl ++ nl ++ "### ASSISTANT:" ++ nl).
Proof. vm_compute. reflexivity. Qed.

(** [make_prompt] on the two Alpaca styles, for every message and input. *)
Lemma make_prompt_alpaca_family (msg inputs : string) (s : sub_style) :
  s <> VICUNA ->
  make_prompt msg inputs (VSubStyle s)
  = Ok ((if sub_style_eqb s ALPACA_INSTRUCT then "### Instruction:" ++ nl ++ nl else "")
        ++ (msg ++ nl ++ (if truthy (VStr inputs) then "### Inputs:" ++ nl ++ inputs else "") ++ nl)
        ++ nl ++ nl ++ "### Response:" ++ nl).
Proof.
  intros Hs. unfold make_prompt.
  destruct s; try congruence; cbn [eq_member sub_style_eqb orb];
    rewrite format_alpaca; reflexivity.
Qed.

Lemma make_prompt_vicuna (msg inputs : string) :
  make_prompt msg inputs (VSubStyle VICUNA)
  = Ok ("### USER:" ++ nl ++ nl ++ msg ++ nl ++ nl ++ "### ASSISTANT:" ++ nl).
Proof. unfold make_prompt. cbn [eq_member sub_style_eqb orb]. apply format_vicuna. Qed.

(** C2, as stated, fails on its example: the template puts two newlines
    after the two that end the body, so four newlines separate the message
    from the response marker, and the three-newline string is not what
    [make_prompt("Knock knock!", sub=ALPACA)] returns. *)
Lemma make_prompt_alpaca_knock_knock_not_three_newlines :
  make_prompt "Knock knock!" "" (VSubStyle ALPACA)
  <> Ok ("Knock knock!" ++ nl ++ nl ++ nl ++ "### Response:" ++ nl).
Proof. vm_compute. discriminate. Qed.

(** C2 (amended): for every message, with empty auxiliary input and style
    ALPACA, [make_prompt] returns the literal template ALPACA_PROMPT_TMPL
    filled with an empty marker and the body [msg] followed by two newlines:
    the message, no inputs section, two further newlines and the response
    marker line.  For "Knock knock!" this is the message, four newlines,
    "### Response:" and a newline. *)
Theorem make_prompt_alpaca_no_inputs (msg : string) :
  make_prompt msg "" (VSubStyle ALPACA)
  = format ALPACA_PROMPT_TMPL
      (<["instru_marker" := ""]> (<["instru_inputs" := msg ++ nl ++ nl]> ∅))
  /\ make_prompt msg "" (VSubStyle ALPACA)
     = Ok (msg ++ nl ++ nl ++ nl ++ nl ++ "### Response:" ++ nl)
  /\ make_prompt "Knock knock!" "" (VSubStyle ALPACA)
     = Ok ("Knock knock!" ++ nl ++ nl ++ nl ++ nl ++ "### Response:" ++ nl).
Proof.
  assert (H : forall m, make_prompt m "" (VSubStyle ALPACA)
                        = Ok (m ++ nl ++ nl ++ nl ++ nl ++ "### Response:" ++ nl)).
  { intros m. rewrite make_prompt_alpaca_family by discriminate.
    cbn [sub_style_eqb]. rewrite inputs_block_empty, !append_nil_l.
    now rewrite !append_assoc. }
  split; [|split]; [| apply H | apply H].
  rewrite H, format_alpaca, append_nil_l. now rewrite !append_assoc.
Qed.

(** C3, as stated, fails on its example: nothing is inserted between the
    blank line and the message, so the result has no space before
    "Knock knock!". *)
Lemma make_prompt_vicuna_knock_knock_no_space :
  make_prompt "Knock knock!" "" (VSubStyle VICUNA)
  <> Ok ("### USER:" ++ nl ++ nl ++ " Knock knock!" ++ nl ++ nl ++ "### ASSISTANT:" ++ nl).
Proof. vm_compute. discriminate. Qed.

(** C3 (amended): for every message (and whatever the auxiliary input),
    style VICUNA renders the fixed template with the message in place of
    the query field; for "Knock knock!" the result is
    "### USER:", a blank line, "Knock knock!", a blank line,
    "### ASSISTANT:" and a newline, with no space before the message. *)
Theorem make_prompt_vicuna_template (msg inputs : string) :
  make_prompt msg inputs (VSubStyle VICUNA)
  = Ok ("### USER:" ++ nl ++ nl ++ msg ++ nl ++ nl ++ "### ASSISTANT:" ++ nl)
  /\ make_prompt "Knock knock!" "" (VSubStyle VICUNA)
     = Ok ("### USER:" ++ nl ++ nl ++ "Knock knock!" ++ nl ++ nl ++ "### ASSISTANT:" ++ nl).
Proof. split; apply make_prompt_vicuna. Qed.

(** C4: a selector that is none of the three members of [sub_style] makes
    [make_prompt] raise a ValueError whose arguments include the selector
    received; with one of the three members it returns a prompt. *)
Theorem make_prompt_selector (msg inputs : string) (sub : pyval) :
  (~ named_style sub ->
   make_prompt msg inputs sub
   = Err (ValueError [VStr "Prompt substyle should be Alpaca or Vicuna, not "; sub]))
  /\ (named_style sub -> exists prompt, make_prompt msg inputs sub = Ok prompt).
Proof.
  split.
  - intros Hsub. unfold make_prompt.
    destruct sub; try reflexivity.
    exfalso. apply Hsub. eexists; reflexivity.
  - intros [s ->]. destruct s.
    + eexists. apply make_prompt_alpaca_family. discriminate.
    + eexists. apply make_prompt_alpaca_family. discriminate.
    + eexists. apply make_prompt_vicuna.
Qed.

Lemma make_prompt_selector_witness :
  make_prompt "Knock knock!" "" (VInt 4)
  = Err (ValueError [VStr "Prompt substyle should be Alpaca or Vicuna, not "; VInt 4])
  /\ exists prompt, make_prompt "Knock knock!" "" (VSubStyle ALPACA_INSTRUCT) = Ok prompt.
Proof.
  split.
  - apply (make_prompt_selector "Knock knock!" "" (VInt 4)).
    intros [s Hs]. discriminate Hs.
  - apply (make_prompt_selector "Knock knock!" "" (VSubStyle ALPACA_INSTRUCT)).
    exists ALPACA_INSTRUCT. reflexivity.
Defined.

(** C10: with style VICUNA the auxiliary inputs have no effect on the
    prompt: for the same message, [make_prompt] returns a string with any
    auxiliary input, and with any two inputs it returns the same string. *)
Theorem make_prompt_vicuna_ignores_inputs (msg inputs1 inputs2 : string) :
  exists prompt,
    make_prompt msg inputs1 (VSubStyle VICUNA) = Ok prompt
    /\ make_prompt msg inputs2 (VSubStyle VICUNA) = Ok prompt.
Proof. eexists. split; apply make_prompt_vicuna. Qed.

End alvic_spec.

(* ===================================================================== *)
(** * Properties of the table-name validation                             *)
(* ===================================================================== *)

Module pgvector_spec.
Import Py pgvector fixtures.

Lemma forall_chars_In (p : ascii -> bool) (s : string) :
  forall_chars p s = true <-> (forall c, In c (chars s) -> p c = true).
Proof.
  induction s as [|x s IH]; simpl.
  - split; [intros _ c [] | reflexivity].
  - rewrite andb_true_iff, IH. split.
    + intros [Hx Hs] c [<- | Hc]; auto.
    + intros H. split; [apply H; now left | intros c Hc; apply H; now right].
Qed.

Lemma replace_cons (x : ascii) (s : string) :
  replace "_" "" (String x s)
  = if Ascii.eqb x "_" then replace "_" "" s else String x (replace "_" "" s).
Proof. simpl. now destruct (Ascii.eqb x "_"). Qed.

(** Stripping the underscores keeps exactly the other characters. *)
Lemma forall_chars_replace (p : ascii -> bool) (s : string) :
  forall_chars p (replace "_" "" s)
  = forall_chars (fun c => Ascii.eqb c "_" || p c) s.
Proof.
  induction s as [|x s IH]; [reflexivity|].
  rewrite replace_cons. cbn [forall_chars].
  destruct (Ascii.eqb x "_"); cbn [forall_chars orb andb]; now rewrite IH.
Qed.

(** Nothing is left after stripping exactly when every character is an
    underscore. *)
Lemma replace_empty (s : string) :
  replace "_" "" s = "" <-> forall_chars (fun c => Ascii.eqb c "_") s = true.
Proof.
  induction s as [|x s IH]; [now split|].
  rewrite replace_cons. cbn [forall_chars].
  destruct (Ascii.eqb x "_"); cbn [andb]; [exact IH | split; discriminate].
Qed.

Lemma isalnum_true (s : string) :
  isalnum s = true <-> s <> "" /\ forall_chars char_isalnum s = true.
Proof.
  destruct s as [|x s]; cbn [isalnum].
  - split; [discriminate | intros [H _]; now contradiction H].
  - split; [intros H; split; [discriminate | exact H] | now intros [_ H]].
Qed.

(** The check of the constructor, by character class. *)
Lemma table_name_ok_iff (name : string) :
  table_name_ok name = true <-> only_word_chars name /\ some_char_not_underscore name.
Proof.
  unfold table_name_ok, only_word_chars, some_char_not_underscore.
  rewrite isalnum_true, forall_chars_replace, replace_empty.
  split.
  - intros [Hne Hall]. split.
    + intros c Hc. apply (proj1 (forall_chars_In _ _) Hall) in Hc.
      apply orb_true_iff in Hc as [H|H]; [|now left].
      right. now apply Ascii.eqb_eq.
    + destruct (forall_chars (fun c => Ascii.eqb c "_") name) eqn:Hus; [now contradiction Hne|].
      clear -Hus. induction name as [|x s IH]; [discriminate|].
      cbn [forall_chars] in Hus. destruct (Ascii.eqb x "_") eqn:Hx.
      * destruct (IH Hus) as (c & Hc & Hne). exists c. split; [now right | exact Hne].
      * exists x. split; [now left|]. now apply Ascii.eqb_neq.
  - intros [Hall (c & Hc & Hne)]. split.
    + intros H. apply (proj1 (forall_chars_In _ _) H) in Hc.
      apply Ascii.eqb_eq in Hc. contradiction.
    + apply forall_chars_In. intros c' Hc'. destruct (Hall c' Hc') as [H | ->].
      * rewrite H. apply orb_true_r.
      * reflexivity.
Qed.

(** The check on a few names: a space or a semicolon is refused, and so
    is a name with nothing in it. *)
Example table_name_ok_examples :
  table_name_ok "doc_chunks_2" = true
  /\ table_name_ok "my table" = false
  /\ table_name_ok "drop;table" = false
  /\ table_name_ok "" = false.
Proof. repeat split; reflexivity. Qed.

(** C1, as stated, fails: a name made of underscores only consists of
    letters, digits and underscores, and the constructor rejects it (as it
    rejects the empty name), because nothing is left to be alphanumeric
    once the underscores are stripped. *)
Lemma underscore_only_name_rejected :
  only_word_chars "_"
  /\ __init__ true NoModel "_" (Conn 0) = Err (ValueError [VStr table_name_message]).
Proof.
  split; [|reflexivity].
  intros c [<- | []]. now right.
Qed.

(** C1 (amended): with the prerequisites available, the constructor
    passes the table-name validation exactly when every character of the
    name is alphanumeric or an underscore and at least one character is
    not an underscore.  Such a name is accepted (the helper is built, with
    no embedding model or with a sentence-embedding model); any other name
    makes the constructor raise the ValueError of the table-name check,
    whatever the embedding model. *)
Theorem table_name_validation (name : string) (c : connection) :
  (table_name_ok name = true <-> only_word_chars name /\ some_char_not_underscore name)
  /\ (only_word_chars name /\ some_char_not_underscore name ->
      __init__ true NoModel name c = Ok (mkPGVectorHelper NoModel 0 c name)
      /\ forall enc dim, enc "" = Ok dim ->
           __init__ true (ModelObject "SentenceTransformer" enc) name c
           = Ok (mkPGVectorHelper (ModelObject "SentenceTransformer" enc) dim c name))
  /\ (~ (only_word_chars name /\ some_char_not_underscore name) ->
      forall em, __init__ true em name c = Err (ValueError [VStr table_name_message])).
Proof.
  split; [apply table_name_ok_iff|]. split.
  - intros Hok. apply table_name_ok_iff in Hok. unfold __init__. rewrite Hok.
    split; [reflexivity|]. intros enc dim Henc. simpl. now rewrite Henc.
  - intros Hbad em. unfold __init__.
    destruct (table_name_ok name) eqn:Hok; [|reflexivity].
    apply table_name_ok_iff in Hok. contradiction.
Qed.

Lemma table_name_validation_witness :
  __init__ true NoModel "doc_chunks_2" (Conn 0)
  = Ok (mkPGVectorHelper NoModel 0 (Conn 0) "doc_chunks_2")
  /\ __init__ true NoModel "drop;table" (Conn 0) = Err (ValueError [VStr table_name_message]).
Proof.
  split.
  - apply (table_name_validation "doc_chunks_2" (Conn 0)).
    apply table_name_ok_iff. reflexivity.
  - apply (table_name_validation "drop;table" (Conn 0)).
    intros H. apply table_name_ok_iff in H. discriminate H.
Defined.

End pgvector_spec.

(* ===================================================================== *)
(** * Properties of the OpenAI-compatible wrappers                        *)
(* ===================================================================== *)

Module llm_wrapper_spec.
Import Py llm_wrapper fixtures.

(** ** Running the monad *)

Lemma bind_run {A B : Type} (m : M A) (f : A -> M B) (w : world) :
  (m ≫= f) w
  = match m w with
    | Returned a w' => f a w'
    | Raised e w' => Raised e w'
    end.
Proof. reflexivity. Qed.

Lemma ret_run {A : Type} (a : A) (w : world) : @mret M _ A a w = Returned a w.
Proof. reflexivity. Qed.

Lemma bind_lift {A B : Type} (r : result A) (f : A -> M B) (w : world) :
  (lift r ≫= f) w
  = match r with
    | Ok a => f a w
    | Err e => Raised e w
    end.
Proof. now destruct r. Qed.

Lemma bind_get_self {B : Type} (f : openai_api -> M B) (w : world) :
  (get_self ≫= f) w = f (self w) w.
Proof. reflexivity. Qed.

Lemma bind_get_global {B : Type} (f : gmap string pyval -> M B) (w : world) :
  (get_global ≫= f) w = f (openai_api_global w) w.
Proof. reflexivity. Qed.

Lemma lift_run {A : Type} (r : result A) (w : world) :
  lift r w = match r with Ok a => Returned a w | Err e => Raised e w end.
Proof. reflexivity. Qed.

(** One step of symbolic execution: expose the next primitive action. *)
Ltac run_step :=
  rewrite ?bind_get_self, ?bind_get_global, ?bind_lift, ?ret_run, ?lift_run.

Lemma world_eta (w : world) : mk_world (self w) (openai_api_global w) (logged w) = w.
Proof. now destruct w. Qed.

Lemma same_settings_refl (s : openai_api) : same_settings s s.
Proof. now repeat split. Qed.

(** The loop of [_claim_global_context] only writes to the client
    configuration. *)
Lemma claim_loop (keys : list string) (w : world) :
  for_each keys (fun k =>
    s ← get_self;
    match parameters s !! k with
    | Some v => setattr_global k v
    | None => mret tt
    end) w
  = Returned tt
      (mk_world (self w)
                (mirror_parameters (parameters (self w)) (openai_api_global w) keys)
                (logged w)).
Proof.
  revert w. induction keys as [|k keys IH]; intros w.
  - cbn. now rewrite world_eta.
  - cbn [for_each]. rewrite !bind_run. unfold get_self at 1.
    destruct (parameters (self w) !! k) as [v|] eqn:Hk.
    + unfold setattr_global at 1. rewrite IH. cbn. now rewrite Hk.
    + rewrite ret_run, IH. cbn. now rewrite Hk.
Qed.

(** Listing the models reads the wrapper and the endpoint and changes
    nothing. *)
Lemma available_models_world (E : environment) (w : world) :
  world_of (available_models E w) = w.
Proof.
  unfold available_models.
  destruct (httpx_installed E); [|reflexivity]. cbn [negb].
  repeat (run_step; try case_match); reflexivity.
Qed.

Lemma hosted_model_world (E : environment) (w : world) :
  world_of (hosted_model E w) = w.
Proof.
  unfold hosted_model. rewrite bind_run.
  pose proof (available_models_world E w) as Hw.
  destruct (available_models E w) as [models w1 | e w1]; cbn in Hw; subst w1; [|reflexivity].
  rewrite bind_run. unfold lift. destruct (len models) as [n|e]; [|reflexivity].
  destruct (Nat.ltb 1 n); reflexivity.
Qed.

(** ** Claiming the client configuration *)

(** [_claim_global_context] first writes the wrapper's settings to the
    client configuration; only a wrapper without a model of its own goes on
    to look the hosted model up. *)
Lemma claim_run (str : pyval -> string) (E : environment) (w : world) :
  _claim_global_context str E w
  = if negb (truthy (original_model (self w))) then
      (m ← hosted_model E;
       set_model m ;;
       s ← get_self;
       match parameters s !! "logger" with
       | Some lg =>
           debug lg ("Switching global context to query LLM hosted at " ++ api_base s
                     ++ ", model " ++ str (model s))
       | None => mret tt
       end) (after_claim w)
    else Returned tt (after_claim w).
Proof.
  unfold _claim_global_context. rewrite bind_run, claim_loop. cbv beta iota.
  rewrite bind_get_self. cbn [self].
  destruct (truthy (original_model (self w))); reflexivity.
Qed.

Lemma claim_pinned (str : pyval -> string) (E : environment) (w : world) :
  truthy (original_model (self w)) = true ->
  _claim_global_context str E w = Returned tt (after_claim w).
Proof. intros H. rewrite claim_run, H. reflexivity. Qed.

(** Whatever its outcome, claiming the configuration leaves the settings of
    the wrapper alone, and its model too when the wrapper has a model of
    its own. *)
Lemma claim_frame (str : pyval -> string) (E : environment) (w : world) :
  same_settings (self w) (self (world_of (_claim_global_context str E w)))
  /\ (truthy (original_model (self w)) = true ->
      model (self (world_of (_claim_global_context str E w))) = model (self w)).
Proof.
  rewrite claim_run. destruct (truthy (original_model (self w))) eqn:Hpin; cbn [negb].
  - split; [apply same_settings_refl | reflexivity].
  - split; [|discriminate].
    rewrite bind_run.
    pose proof (hosted_model_world E (after_claim w)) as Hw.
    destruct (hosted_model E (after_claim w)) as [m w1 | e w1]; cbn in Hw; subst w1;
      [|apply same_settings_refl].
    rewrite bind_run. unfold set_model at 1. cbv beta iota zeta.
    rewrite bind_get_self. cbn [self parameters].
    change (self (after_claim w)) with (self w).
    destruct (parameters (self w) !! "logger") as [lg|];
      [destruct lg|]; now repeat split.
Qed.

(** ** Calls *)

Lemma call_world (f : api_function) (named : list (string * pyval))
    (unpacked : list (gmap string pyval)) (w : world) :
  world_of (call f named unpacked w) = w.
Proof. unfold call. repeat (run_step; try case_match); reflexivity. Qed.

(** A completion call changes the world only by claiming the client
    configuration. *)
Lemma completion_call_world (str : pyval -> string) (E : environment) (prompt : string)
    (api_func : option api_function) (kwargs : gmap string pyval) (w : world) :
  world_of (openai_api__call__ str E prompt api_func kwargs w)
  = world_of (_claim_global_context str E w).
Proof.
  unfold openai_api__call__. cbv zeta. rewrite bind_run.
  destruct (_claim_global_context str E w) as [[] w1 | e w1]; [|reflexivity].
  rewrite bind_get_self, bind_run.
  match goal with |- context [call ?f ?n ?u w1] =>
    pose proof (call_world f n u w1) as Hw; destruct (call f n u w1) as [r w2 | e w2]
  end; cbn in Hw; subst w2; [|reflexivity].
  repeat (run_step; try case_match); reflexivity.
Qed.

Lemma chat_call_world (str : pyval -> string) (E : environment) (messages : pyval)
    (api_func : option api_function) (kwargs : gmap string pyval) (w : world) :
  world_of (openai_chat_api__call__ str E messages api_func kwargs w)
  = world_of (_claim_global_context str E w).
Proof.
  unfold openai_chat_api__call__. cbv zeta. rewrite bind_run.
  destruct (_claim_global_context str E w) as [[] w1 | e w1]; [|reflexivity].
  rewrite bind_get_self. apply call_world.
Qed.

(** ** Keyword arguments *)

Lemma explicit_keywords_lookup (a b k : string) (x y : pyval) :
  (list_to_map [(a, x); (b, y)] : gmap string pyval) !! k
  = if decide (a = k) then Some x else if decide (b = k) then Some y else None.
Proof.
  cbn [list_to_map foldr fst snd uncurry]. rewrite !lookup_insert.
  repeat case_decide; reflexivity.
Qed.

(** The request of a completion call carries the call-time value of every
    keyword given at call time, whether or not the wrapper stores a value
    under the same key. *)
Lemma completion_request_call_time_wins (prompt : string) (kwargs : gmap string pyval)
    (s : openai_api) (k : string) (v : pyval) :
  kwargs !! k = Some v ->
  (kwargs ∪ parameters s) !! "model" = None ->
  (kwargs ∪ parameters s) !! "prompt" = None ->
  exists kw, completion_request prompt kwargs s = Ok kw /\ kw !! k = Some v.
Proof.
  intros Hk Hmodel Hprompt.
  assert (Hmerged : (kwargs ∪ parameters s) !! k = Some v) by now apply lookup_union_Some_l.
  unfold completion_request. cbn [unpack_keywords].
  destruct (decide (_ ##ₘ _)) as [Hd | Hd].
  - eexists. split; [reflexivity|].
    rewrite lookup_union_r; [exact Hmerged|].
    rewrite explicit_keywords_lookup. repeat case_decide; congruence.
  - exfalso. apply Hd. apply map_disjoint_alt. intros i.
    rewrite explicit_keywords_lookup. repeat case_decide; subst; auto.
Qed.


(** ** Listing the models *)

(** With a listing whose [data] begins with an entry that has an [id],
    [available_models] returns that one identifier. *)
Lemma available_models_first_id (E : environment) (w : world)
    (d first : gmap string pyval) (others : list pyval) (v : pyval) :
  httpx_installed E = true ->
  httpx_get_json E (api_base (self w) ++ "/models") = Ok (VDict d) ->
  d !! "data" = Some (VList (VDict first :: others)) ->
  first !! "id" = Some v ->
  available_models E w = Returned v w.
Proof.
  intros Hx Hget Hdata Hid. unfold available_models. rewrite Hx. cbn [negb].
  rewrite bind_get_self, bind_lift, Hget, bind_lift.
  cbn [getitem]. rewrite Hdata, bind_lift. cbn [iter]. rewrite lift_run.
  cbn [getitem]. now rewrite Hid.
Qed.

(** With an empty listing there is no first entry to take. *)
Lemma available_models_empty_listing (E : environment) (w : world)
    (d : gmap string pyval) :
  httpx_installed E = true ->
  httpx_get_json E (api_base (self w) ++ "/models") = Ok (VDict d) ->
  d !! "data" = Some (VList []) ->
  available_models E w = Raised StopIteration w.
Proof.
  intros Hx Hget Hdata. unfold available_models. rewrite Hx. cbn [negb].
  rewrite bind_get_self, bind_lift, Hget, bind_lift.
  cbn [getitem]. rewrite Hdata, bind_lift. reflexivity.
Qed.

(** ** Extracting the first choice *)

Lemma getitem_first (x : pyval) (l : list pyval) :
  getitem (VList (x :: l)) (VInt 0) = Ok x.
Proof. reflexivity. Qed.

Lemma getitem_key (d : gmap string pyval) (k : string) :
  getitem (VDict d) (VStr k)
  = match d !! k with Some v => Ok v | None => Err (KeyError (VStr k)) end.
Proof. reflexivity. Qed.

Lemma result_bind_run {A B : Type} (r : result A) (f : A -> result B) :
  (r ≫= f) = match r with Ok a => f a | Err e => Err e end.
Proof. reflexivity. Qed.

(** Follow a chain of subscripts one step. *)
Ltac subscript_step :=
  rewrite ?result_bind_run, ?getitem_first, ?getitem_key; cbv beta iota.

Lemma first_choice_text_present (repr : pyval -> string)
    (d choice : gmap string pyval) (others : list pyval) (v : pyval) :
  d !! "choices" = Some (VList (VDict choice :: others)) ->
  choice !! "text" = Some v ->
  first_choice_text repr (VDict d) = Ok v.
Proof.
  intros Hc Ht. unfold first_choice_text.
  subscript_step. rewrite Hc. subscript_step. now rewrite Ht.
Qed.

Lemma first_choice_message_present (repr : pyval -> string)
    (d choice message : gmap string pyval) (others : list pyval) (v : pyval) :
  d !! "choices" = Some (VList (VDict choice :: others)) ->
  choice !! "message" = Some (VDict message) ->
  message !! "content" = Some v ->
  first_choice_message repr (VDict d) = Ok v.
Proof.
  intros Hc Hm Ht. unfold first_choice_message.
  subscript_step. rewrite Hc. subscript_step. rewrite Hm. subscript_step.
  now rewrite Ht.
Qed.

(** A mapping without the key [choices] is reported as a RuntimeError
    whose message ends with the [repr] of the response. *)
Lemma first_choice_text_no_choices_key (repr : pyval -> string) (d : gmap string pyval) :
  d !! "choices" = None ->
  first_choice_text repr (VDict d)
  = Err (RuntimeError [VStr
      ("Response does not appear to be an OpenAI API completion structure, as expected:"
       ++ nl ++ repr (VDict d))]).
Proof.
  intros Hc. unfold first_choice_text.
  subscript_step. now rewrite Hc.
Qed.

Lemma first_choice_message_no_choices_key (repr : pyval -> string) (d : gmap string pyval) :
  d !! "choices" = None ->
  first_choice_message repr (VDict d)
  = Err (RuntimeError [VStr
      ("Response does not appear to be an OpenAI API chat-style completion structure, as expected:"
       ++ nl ++ repr (VDict d))]).
Proof.
  intros Hc. unfold first_choice_message.
  subscript_step. now rewrite Hc.
Qed.

(** A completion call that reaches the API function. *)
Lemma completion_call_run (str : pyval -> string) (E : environment) (prompt : string)
    (api_func : option api_function) (kwargs : gmap string pyval) (w w1 : world)
    (r : result pyval) :
  api_call_gives str E (completion_request prompt kwargs)
                 (default (Completion_create E) api_func) w w1 r ->
  openai_api__call__ str E prompt api_func kwargs w
  = match r with
    | Ok result =>
        match get result "model" with
        | Ok reported =>
            if eq_str reported "HOSTED_MODEL"
            then lift (setitem result "model" (model (self w1))) w1
            else Returned result w1
        | Err e => Raised e w1
        end
    | Err e => Raised e w1
    end.
Proof.
  intros (Hclaim & kw & Hkw & Hf). unfold completion_request in Hkw.
  unfold openai_api__call__, call. cbv zeta.
  rewrite bind_run, Hclaim. cbv beta iota.
  rewrite bind_get_self, bind_run, bind_lift, Hkw, bind_get_global, lift_run, Hf.
  destruct r as [result|e]; [|reflexivity].
  rewrite bind_lift. destruct (get result "model") as [reported|e]; [|reflexivity].
  destruct (eq_str reported "HOSTED_MODEL"); reflexivity.
Qed.

(** A chat call that reaches the API function returns its answer as it
    is. *)
Lemma chat_call_run (str : pyval -> string) (E : environment) (messages : pyval)
    (api_func : option api_function) (kwargs : gmap string pyval) (w w1 : world)
    (r : result pyval) :
  api_call_gives str E (chat_request messages kwargs)
                 (default (ChatCompletion_create E) api_func) w w1 r ->
  openai_chat_api__call__ str E messages api_func kwargs w = lift r w1.
Proof.
  intros (Hclaim & kw & Hkw & Hf). unfold chat_request in Hkw.
  unfold openai_chat_api__call__, call. cbv zeta.
  rewrite bind_run, Hclaim. cbv beta iota.
  rewrite bind_get_self, bind_lift, Hkw, bind_get_global, Hf. reflexivity.
Qed.

(** A completion call whose response reports the placeholder model name
    returns the response with the wrapper's model under [model] and every
    other field as the API function gave it. *)
Lemma completion_call_rewrites_placeholder (str : pyval -> string) (E : environment)
    (prompt : string) (api_func : option api_function) (kwargs : gmap string pyval)
    (w w1 : world) (d : gmap string pyval) :
  api_call_gives str E (completion_request prompt kwargs)
                 (default (Completion_create E) api_func) w w1 (Ok (VDict d)) ->
  d !! "model" = Some (VStr "HOSTED_MODEL") ->
  openai_api__call__ str E prompt api_func kwargs w
  = Returned (VDict (<["model" := model (self w1)]> d)) w1
  /\ forall k, k <> "model" -> (<["model" := model (self w1)]> d) !! k = d !! k.
Proof.
  intros Hcall Hmodel. split.
  - rewrite (completion_call_run _ _ _ _ _ _ _ _ Hcall).
    cbn [get]. rewrite Hmodel. reflexivity.
  - intros k Hk. now apply lookup_insert_ne.
Qed.

(** Any call that raises, at whatever stage, respects the frame. *)
Lemma raised_call_frame (str : pyval -> string) (E : environment) (prompt : string)
    (messages : pyval) (api_func : option api_function) (kwargs : gmap string pyval)
    (w w' : world) (e : exn) :
  openai_api__call__ str E prompt api_func kwargs w = Raised e w'
  \/ openai_chat_api__call__ str E messages api_func kwargs w = Raised e w' ->
  wrapper_frame w w'.
Proof.
  intros [H | H].
  - pose proof (completion_call_world str E prompt api_func kwargs w) as Hw.
    rewrite H in Hw. cbn [world_of] in Hw. rewrite Hw. apply claim_frame.
  - pose proof (chat_call_world str E messages api_func kwargs w) as Hw.
    rewrite H in Hw. cbn [world_of] in Hw. rewrite Hw. apply claim_frame.
Qed.

(** C9, as stated, fails: a wrapper built without a model name asks the
    endpoint for the hosted model each time it claims the configuration,
    before the request is sent.  Here the endpoint lists "new-model", the
    API call then fails, and the failed call leaves the wrapper with the
    model "new-model" where it had "old-model". *)
Lemma failed_call_refreshes_model :
  let E := endpoint (listing_of ["new-model"]) failing_api in
  let w' := after_refresh unpinned_wrapper (VStr "new-model") in
  api_call_gives plain_str E (completion_request "Knock knock!" ∅) failing_api
                 unpinned_wrapper w' (Err (UpstreamError "connection refused"))
  /\ openai_api__call__ plain_str E "Knock knock!" None ∅ unpinned_wrapper
     = Raised (UpstreamError "connection refused") w'
  /\ model (self unpinned_wrapper) = VStr "old-model"
  /\ model (self w') = VStr "new-model"
  /\ model (self w') <> model (self unpinned_wrapper).
Proof.
  cbv zeta. split; [split|].
  - vm_compute. reflexivity.
  - exists (<["model" := VStr "new-model"]> {[ "prompt" := VStr "Knock knock!" ]}).
    split; vm_compute; reflexivity.
  - repeat split; try (vm_compute; reflexivity). discriminate.
Qed.

(** C9 (amended): when an invocation (completion or chat) reaches the API
    function and that function fails, the invocation raises the same
    failure, and afterwards [original_model], [parameters], [api_key] and
    [api_base] of the wrapper are what they were before the call; [model]
    too is what it was when the wrapper was built with a model name. *)
Theorem failed_api_call_propagates (str : pyval -> string) (E : environment)
    (prompt : string) (messages : pyval) (api_func : option api_function)
    (kwargs : gmap string pyval) (w w1 : world) (e : exn) :
  (api_call_gives str E (completion_request prompt kwargs)
                  (default (Completion_create E) api_func) w w1 (Err e) ->
   openai_api__call__ str E prompt api_func kwargs w = Raised e w1
   /\ wrapper_frame w w1)
  /\ (api_call_gives str E (chat_request messages kwargs)
                     (default (ChatCompletion_create E) api_func) w w1 (Err e) ->
      openai_chat_api__call__ str E messages api_func kwargs w = Raised e w1
      /\ wrapper_frame w w1).
Proof.
  split; intros H.
  - pose proof (completion_call_run _ _ _ _ _ _ _ _ H) as Hrun. cbv beta iota in Hrun.
    split; [exact Hrun|].
    apply (raised_call_frame str E prompt messages api_func kwargs w w1 e). now left.
  - pose proof (chat_call_run _ _ _ _ _ _ _ _ H) as Hrun. cbn [lift] in Hrun.
    split; [exact Hrun|].
    apply (raised_call_frame str E prompt messages api_func kwargs w w1 e). now right.
Qed.

Lemma failed_api_call_propagates_witness :
  let E := endpoint (listing_of ["new-model"]) failing_api in
  let w := pinned_wrapper {[ "max_tokens" := VInt 128 ]} in
  (openai_api__call__ plain_str E "Knock knock!" None ∅ w
   = Raised (UpstreamError "connection refused") (after_claim w)
   /\ wrapper_frame w (after_claim w))
  /\ (openai_chat_api__call__ plain_str E knock_knock_chat None ∅ w
      = Raised (UpstreamError "connection refused") (after_claim w)
      /\ wrapper_frame w (after_claim w)).
Proof.
  intros E w.
  split.
  - apply (failed_api_call_propagates plain_str E "Knock knock!" knock_knock_chat None ∅ w).
    split; [reflexivity|].
    exists (<["model" := VStr "my-model"]>
              (<["prompt" := VStr "Knock knock!"]> {[ "max_tokens" := VInt 128 ]})).
    split; vm_compute; reflexivity.
  - apply (failed_api_call_propagates plain_str E "Knock knock!" knock_knock_chat None ∅ w).
    split; [reflexivity|].
    exists (<["model" := VStr "my-model"]>
              (<["messages" := knock_knock_chat]> {[ "max_tokens" := VInt 128 ]})).
    split; vm_compute; reflexivity.
Defined.

(** C5: the completion wrapper rewrites the placeholder, the chat wrapper
    does not.  With an API function that answers [hosted_response], whose
    model field is "HOSTED_MODEL", a chat call on a wrapper whose model is
    "my-model" returns the response with the placeholder still in place,
    while a completion call on the same wrapper returns it with the model
    field "my-model". *)
Theorem chat_call_keeps_placeholder_model :
  let E := endpoint (listing_of ["model-a"]) (stub_api hosted_response) in
  let w := pinned_wrapper ∅ in
  openai_chat_api__call__ plain_str E knock_knock_chat None ∅ w
  = Returned hosted_response (after_claim w)
  /\ get hosted_response "model" = Ok (VStr "HOSTED_MODEL")
  /\ model (self (after_claim w)) = VStr "my-model"
  /\ openai_api__call__ plain_str E "Knock knock!" None ∅ w
     = Returned named_response (after_claim w).
Proof. cbv zeta. repeat split; vm_compute; reflexivity. Qed.

(** C6: the completion wrapper merges stored and call-time parameters, the
    chat wrapper unpacks both into the call.  With [max_tokens] stored as
    128 and given as 256 at call time, the chat call raises a TypeError
    before the API function is reached, while the completion call issues
    the request with [max_tokens] 256. *)
Theorem chat_call_fails_on_overridden_parameter :
  let E := endpoint (listing_of ["model-a"]) echo_api in
  let w := pinned_wrapper {[ "max_tokens" := VInt 128 ]} in
  let kwargs : gmap string pyval := {[ "max_tokens" := VInt 256 ]} in
  openai_chat_api__call__ plain_str E knock_knock_chat None kwargs w
  = Raised TypeError (after_claim w)
  /\ openai_api__call__ plain_str E "Knock knock!" None kwargs w
     = Returned (VDict (<["model" := VStr "my-model"]>
                        (<["prompt" := VStr "Knock knock!"]>
                           {[ "max_tokens" := VInt 256 ]})))
                (after_claim w).
Proof. cbv zeta. split; vm_compute; reflexivity. Qed.

(** C7: on a response whose list of choices is present but empty, both
    extraction helpers let the IndexError of the subscript through; it is
    not turned into the RuntimeError that shows the response, which only a
    KeyError is. *)
Theorem first_choice_of_empty_choices (repr : pyval -> string) :
  first_choice_text repr no_choices = Err IndexError
  /\ first_choice_message repr no_choices = Err IndexError.
Proof. split; reflexivity. Qed.

(** C8: with a listing of two models, [available_models] returns the
    identifier of the first entry, a string, and not the sequence of the
    two identifiers. *)
Theorem available_models_returns_first_id :
  let E := endpoint (listing_of ["model-a"; "model-b"]) failing_api in
  available_models E unpinned_wrapper = Returned (VStr "model-a") unpinned_wrapper
  /\ available_models E unpinned_wrapper
     <> Returned (VList [VStr "model-a"; VStr "model-b"]) unpinned_wrapper.
Proof.
  cbv zeta.
  assert (H : available_models (endpoint (listing_of ["model-a"; "model-b"]) failing_api)
                unpinned_wrapper
              = Returned (VStr "model-a") unpinned_wrapper)
    by (vm_compute; reflexivity).
  split; [exact H|]. rewrite H. discriminate.
Qed.

End llm_wrapper_spec.

(* ===================================================================== *)
(** * Further properties of the prompt formatter                          *)
(* ===================================================================== *)

Module alvic_more.
Import Py alvic fixtures alvic_spec.

Lemma length_append (a b : string) :
  String.length (a ++ b) = String.length a + String.length b.
Proof.
  induction a as [|x a IH]; [reflexivity|].
  rewrite append_cons. cbn [String.length]. now rewrite IH.
Qed.

Lemma append_cancel_r (a b c : string) : a ++ c = b ++ c -> a = b.
Proof.
  revert b. induction a as [|x a IH]; intros [|y b] Heq.
  - reflexivity.
  - apply (f_equal String.length) in Heq.
    rewrite append_nil_l, append_cons in Heq. cbn [String.length] in Heq.
    rewrite length_append in Heq. lia.
  - apply (f_equal String.length) in Heq.
    rewrite append_nil_l, append_cons in Heq. cbn [String.length] in Heq.
    rewrite length_append in Heq. lia.
  - rewrite !append_cons in Heq. injection Heq as -> Heq.
    f_equal. now apply IH.
Qed.

Lemma truthy_nonempty (s : string) : s <> "" -> truthy (VStr s) = true.
Proof.
  intros Hs. cbn [truthy]. destruct (String.eqb s "") eqn:Heq; [|reflexivity].
  apply String.eqb_eq in Heq. contradiction.
Qed.

(** X1: with style ALPACA and a non-empty auxiliary input, the prompt is
    the message, a line "### Inputs:", the input, a blank line filled out
    to three newlines, and the response marker line. *)
Theorem make_prompt_alpaca_with_inputs (msg inputs : string) :
  inputs <> "" ->
  make_prompt msg inputs (VSubStyle ALPACA)
  = Ok (msg ++ nl ++ "### Inputs:" ++ nl ++ inputs
        ++ nl ++ nl ++ nl ++ "### Response:" ++ nl).
Proof.
  intros Hin. rewrite make_prompt_alpaca_family by discriminate.
  rewrite (truthy_nonempty _ Hin). cbn [sub_style_eqb].
  rewrite append_nil_l. now rewrite !append_assoc.
Qed.

Lemma make_prompt_alpaca_with_inputs_witness :
  make_prompt "Translate to French" "Good morning" (VSubStyle ALPACA)
  = Ok ("Translate to French" ++ nl ++ "### Inputs:" ++ nl ++ "Good morning"
        ++ nl ++ nl ++ nl ++ "### Response:" ++ nl).
Proof.
  apply (make_prompt_alpaca_with_inputs "Translate to French" "Good morning").
  discriminate.
Defined.

(** X2: for every message and input, the ALPACA_INSTRUCT prompt is the
    ALPACA prompt with the line "### Instruction:" and a blank line put in
    front of it. *)
Theorem make_prompt_instruct_prefixes_alpaca (msg inputs : string) :
  exists prompt,
    make_prompt msg inputs (VSubStyle ALPACA) = Ok prompt
    /\ make_prompt msg inputs (VSubStyle ALPACA_INSTRUCT)
       = Ok ("### Instruction:" ++ nl ++ nl ++ prompt).
Proof.
  eexists. split.
  - rewrite make_prompt_alpaca_family by discriminate. cbn [sub_style_eqb].
    rewrite append_nil_l. reflexivity.
  - rewrite make_prompt_alpaca_family by discriminate. cbn [sub_style_eqb].
    now rewrite !append_assoc.
Qed.

(** X3: in the two Alpaca styles the inputs section is not set apart from
    the message: a message that itself ends with an "### Inputs:" line and
    a text, given without auxiliary input, yields the same prompt as the
    shorter message given with that text and a newline as auxiliary
    input.  Both calls return a prompt, and it is the same string. *)
Theorem make_prompt_alpaca_inputs_forgeable (a b : string) :
  (exists prompt,
     make_prompt (a ++ nl ++ "### Inputs:" ++ nl ++ b) "" (VSubStyle ALPACA) = Ok prompt
     /\ make_prompt a (b ++ nl) (VSubStyle ALPACA) = Ok prompt)
  /\ (exists prompt,
        make_prompt (a ++ nl ++ "### Inputs:" ++ nl ++ b) "" (VSubStyle ALPACA_INSTRUCT)
        = Ok prompt
        /\ make_prompt a (b ++ nl) (VSubStyle ALPACA_INSTRUCT) = Ok prompt).
Proof.
  assert (Hne : b ++ nl <> "").
  { intros Heq. apply (f_equal String.length) in Heq.
    rewrite length_append in Heq. cbn in Heq. lia. }
  split; eexists; (split; [rewrite make_prompt_alpaca_family by discriminate; reflexivity|]);
    rewrite make_prompt_alpaca_family by discriminate;
    rewrite (truthy_nonempty _ Hne), inputs_block_empty; cbn [sub_style_eqb];
    rewrite ?append_nil_l; now rewrite !append_assoc.
Qed.

(** X4: with style VICUNA, two different messages never give the same
    prompt, whatever the auxiliary inputs. *)
Theorem make_prompt_vicuna_injective (msg1 msg2 inputs1 inputs2 : string) :
  msg1 <> msg2 ->
  make_prompt msg1 inputs1 (VSubStyle VICUNA) <> make_prompt msg2 inputs2 (VSubStyle VICUNA).
Proof.
  intros Hne Heq. rewrite !make_prompt_vicuna in Heq. injection Heq as Heq.
  apply Hne.
  rewrite !append_nil_l in Heq.
  now apply append_cancel_r in Heq.
Qed.

Lemma make_prompt_vicuna_injective_witness :
  make_prompt "Knock knock!" "" (VSubStyle VICUNA)
  <> make_prompt "Knock knock" "!" (VSubStyle VICUNA).
Proof.
  apply (make_prompt_vicuna_injective "Knock knock!" "Knock knock" "" "!").
  discriminate.
Defined.

End alvic_more.

(* ===================================================================== *)
(** * Further properties of the vector-store helper                       *)
(* ===================================================================== *)

Module pgvector_more.
Import Py pgvector fixtures pgvector_session vocabulary pgvector_spec.

Lemma db_bind_run {A B : Type} (m : Db A) (f : A -> Db B) (tr : list request) :
  (m ≫= f) tr
  = match m tr with
    | (Ok a, tr') => f a tr'
    | (Err e, tr') => (Err e, tr')
    end.
Proof. reflexivity. Qed.

Lemma send_run (S : server) (r : request) (tr : list request) :
  send S r tr = (reply S tr r, (tr ++ [r])%list).
Proof. reflexivity. Qed.

Lemma count_char_append (x : ascii) (a b : string) :
  count_char x (a ++ b) = count_char x a + count_char x b.
Proof.
  induction a as [|y a IH]; [reflexivity|].
  rewrite alvic_spec.append_cons. cbn [count_char]. rewrite IH. lia.
Qed.

(** A character that is neither alphanumeric nor the underscore does not
    occur in a string of word characters. *)
Lemma count_char_word (x : ascii) (s : string) :
  only_word_chars s -> char_isalnum x = false -> x <> "_"%char ->
  count_char x s = 0.
Proof.
  intros Hs Hx Hu. induction s as [|y s IH]; [reflexivity|].
  cbn [count_char]. rewrite IH.
  - destruct (Ascii.eqb y x) eqn:Hyx; [|reflexivity].
    apply Ascii.eqb_eq in Hyx. subst y.
    destruct (Hs x) as [H | H]; [now left | congruence | contradiction].
  - intros c Hc. apply Hs. now right.
Qed.

(** What a successful construction tells about its arguments. *)
Lemma init_ok_inv (b : bool) (em : embedding_model) (name : string) (c : connection)
    (h : PGVectorHelper) :
  __init__ b em name c = Ok h ->
  b = true /\ table_name_ok name = true
  /\ h = mkPGVectorHelper em (_embed_dimension h) c name
  /\ match em with
     | NoModel => _embed_dimension h = 0
     | ModelObject cls enc =>
         cls = "SentenceTransformer" /\ enc "" = Ok (_embed_dimension h)
     end.
Proof.
  unfold __init__. destruct b; [|discriminate]. cbn [negb].
  destruct (table_name_ok name); [|discriminate]. cbn [negb].
  destruct em as [|cls enc]; cbn [class_name_of truthy negb andb].
  - cbn. intros [= <-]. now repeat split.
  - rewrite andb_true_r. destruct (String.eqb cls "SentenceTransformer") eqn:Hcls.
    + apply String.eqb_eq in Hcls. subst cls.
      destruct (enc "") as [dim|e] eqn:Henc; cbn; [|discriminate].
      intros [= <-]. now repeat split.
    + discriminate.
Qed.

(** X5: a helper the constructor returns was built with the prerequisites
    available, holds the connection, the embedding model and the table name
    it was given, and that name consists of alphanumeric characters and
    underscores with at least one character that is not an underscore; its
    dimension is 0 without a model, and the length of the encoding of the
    empty text with a model, whose class is then named
    SentenceTransformer. *)
Theorem constructed_helper_invariant (b : bool) (em : embedding_model) (name : string)
    (c : connection) (h : PGVectorHelper) :
  __init__ b em name c = Ok h ->
  b = true
  /\ table_name h = name /\ conn h = c /\ _embedding_model h = em
  /\ only_word_chars name /\ some_char_not_underscore name
  /\ match em with
     | NoModel => _embed_dimension h = 0
     | ModelObject cls enc =>
         cls = "SentenceTransformer" /\ enc "" = Ok (_embed_dimension h)
     end.
Proof.
  intros Hh. destruct (init_ok_inv _ _ _ _ _ Hh) as (Hb & Hok & Hrec & Hdim).
  apply table_name_ok_iff in Hok as [Hw Hn].
  rewrite Hrec. cbn. now repeat split.
Qed.

Lemma constructed_helper_invariant_witness :
  let h := mkPGVectorHelper NoModel 0 (Conn 7) "doc_chunks" in
  __init__ true NoModel "doc_chunks" (Conn 7) = Ok h
  /\ (true = true
      /\ table_name h = "doc_chunks" /\ conn h = Conn 7 /\ _embedding_model h = NoModel
      /\ only_word_chars "doc_chunks" /\ some_char_not_underscore "doc_chunks"
      /\ _embed_dimension h = 0).
Proof.
  split; [reflexivity|].
  exact (constructed_helper_invariant true NoModel "doc_chunks" (Conn 7)
           (mkPGVectorHelper NoModel 0 (Conn 7) "doc_chunks") eq_refl).
Defined.

(** X6: when the server accepts them, [from_connection] sends the
    extension statement, the vector registration and the JSON codec
    registration, in that order, and only then runs the constructor: the
    three requests are made even for a table name the constructor then
    refuses. *)
Theorem from_connection_sets_up_then_constructs (S : server) (em : embedding_model)
    (name : string) (c : connection) (tr : list request) :
  let r1 := Execute c "CREATE EXTENSION IF NOT EXISTS vector;" in
  let r2 := RegisterVector c in
  let r3 := SetTypeCodec c "JSON" "pg_catalog" in
  (exists v, reply S tr r1 = Ok v) ->
  (exists v, reply S (tr ++ [r1])%list r2 = Ok v) ->
  (exists v, reply S (tr ++ [r1; r2])%list r3 = Ok v) ->
  from_connection S true em name c tr
  = (__init__ true em name c, (tr ++ [r1; r2; r3])%list).
Proof.
  intros r1 r2 r3 [v1 H1] [v2 H2] [v3 H3]. unfold from_connection, register_vector.
  rewrite db_bind_run, send_run. fold r1. rewrite H1.
  rewrite db_bind_run, send_run. fold r2. rewrite H2.
  rewrite db_bind_run, send_run. fold r3.
  replace ((tr ++ [r1]) ++ [r2])%list with (tr ++ [r1; r2])%list
    by now rewrite <- app_assoc.
  rewrite H3. unfold pure_result.
  now rewrite <- !app_assoc.
Qed.

Lemma from_connection_sets_up_then_constructs_witness :
  let c := Conn 1 in
  from_connection accepting true NoModel "my table" c []
  = (Err (ValueError [VStr table_name_message]),
     [Execute c "CREATE EXTENSION IF NOT EXISTS vector;"; RegisterVector c;
      SetTypeCodec c "JSON" "pg_catalog"]).
Proof.
  cbv zeta.
  apply (from_connection_sets_up_then_constructs accepting NoModel "my table" (Conn 1) []);
    exists VNone; reflexivity.
Defined.

(** X7: a setup request that fails ends [from_connection] there: the
    failure is what the caller gets, no further request is made and no
    helper is built.  This holds for each of the three setup requests. *)
Theorem from_connection_stops_at_failure (S : server) (em : embedding_model)
    (name : string) (c : connection) (tr : list request) (e : exn) :
  let r1 := Execute c "CREATE EXTENSION IF NOT EXISTS vector;" in
  let r2 := RegisterVector c in
  let r3 := SetTypeCodec c "JSON" "pg_catalog" in
  (reply S tr r1 = Err e ->
   from_connection S true em name c tr = (Err e, (tr ++ [r1])%list))
  /\ ((exists v, reply S tr r1 = Ok v) -> reply S (tr ++ [r1])%list r2 = Err e ->
      from_connection S true em name c tr = (Err e, (tr ++ [r1; r2])%list))
  /\ ((exists v, reply S tr r1 = Ok v) -> (exists v, reply S (tr ++ [r1])%list r2 = Ok v) ->
      reply S (tr ++ [r1; r2])%list r3 = Err e ->
      from_connection S true em name c tr = (Err e, (tr ++ [r1; r2; r3])%list)).
Proof.
  intros r1 r2 r3. unfold from_connection, register_vector. repeat split.
  - intros H1. rewrite db_bind_run, send_run. fold r1. now rewrite H1.
  - intros [v1 H1] H2. rewrite db_bind_run, send_run. fold r1. rewrite H1.
    rewrite db_bind_run, send_run. fold r2. rewrite H2. now rewrite <- app_assoc.
  - intros [v1 H1] [v2 H2] H3. rewrite db_bind_run, send_run. fold r1. rewrite H1.
    rewrite db_bind_run, send_run. fold r2. rewrite H2.
    rewrite db_bind_run, send_run. fold r3.
    replace ((tr ++ [r1]) ++ [r2])%list with (tr ++ [r1; r2])%list
      by now rewrite <- app_assoc.
    rewrite H3. now rewrite <- !app_assoc.
Qed.

Lemma from_connection_stops_at_failure_witness :
  from_connection unreachable true NoModel "doc_chunks" (Conn 1) []
  = (Err (UpstreamError "connection refused"),
     [Execute (Conn 1) "CREATE EXTENSION IF NOT EXISTS vector;"]).
Proof.
  apply (from_connection_stops_at_failure unreachable NoModel "doc_chunks" (Conn 1) []
           (UpstreamError "connection refused")).
  reflexivity.
Defined.

(** X8: the statements of a constructed helper that spell out the table
    name are the fixed text around that name and nothing else: the
    statement of [drop_table] has a single semicolon (its last character),
    four spaces and no quote, the query of [count_items] has no semicolon,
    three spaces and no quote; [table_exists] sends the fixed query with the
    name as its bound argument. *)
Theorem constructed_helper_statements (S : server) (b : bool) (em : embedding_model)
    (name : string) (c : connection) (h : PGVectorHelper) (tr : list request) :
  __init__ b em name c = Ok h ->
  let drop := "DROP TABLE IF EXISTS " ++ name ++ ";" in
  let count := "SELECT COUNT(*) FROM " ++ name in
  snd (drop_table S h tr) = (tr ++ [Execute c drop])%list
  /\ snd (count_items S h tr) = (tr ++ [Fetchval c count []])%list
  /\ snd (table_exists S h tr) = (tr ++ [Fetchval c CHECK_TABLE_EXISTS [VStr name]])%list
  /\ count_char ";" drop = 1 /\ count_char " " drop = 4 /\ count_char "'" drop = 0
  /\ count_char ";" count = 0 /\ count_char " " count = 3 /\ count_char "'" count = 0.
Proof.
  intros Hh drop count.
  destruct (init_ok_inv _ _ _ _ _ Hh) as (_ & Hok & Hrec & _).
  apply table_name_ok_iff in Hok as [Hw _].
  assert (Hz : forall x, char_isalnum x = false -> x <> "_"%char -> count_char x name = 0)
    by (intros x; now apply count_char_word).
  rewrite Hrec. unfold drop_table, count_items, table_exists.
  rewrite !db_bind_run, !send_run. cbn [conn table_name].
  split; [now destruct (reply S tr _)|].
  split; [now destruct (reply S tr _)|].
  split; [now destruct (reply S tr _)|].
  unfold drop, count. rewrite !count_char_append.
  rewrite !Hz by (reflexivity || discriminate).
  repeat split; reflexivity.
Qed.

Lemma constructed_helper_statements_witness :
  let h := mkPGVectorHelper NoModel 0 (Conn 1) "doc_chunks" in
  snd (drop_table accepting h [])
  = [Execute (Conn 1) "DROP TABLE IF EXISTS doc_chunks;"]
  /\ snd (count_items accepting h [])
     = [Fetchval (Conn 1) "SELECT COUNT(*) FROM doc_chunks" []].
Proof.
  pose proof (constructed_helper_statements accepting true NoModel "doc_chunks" (Conn 1)
                (mkPGVectorHelper NoModel 0 (Conn 1) "doc_chunks") [] eq_refl) as H.
  cbv zeta in H. split; apply H.
Defined.



End pgvector_more.

(* ===================================================================== *)
(** * Further properties of the OpenAI-compatible wrappers                *)
(* ===================================================================== *)

Module llm_wrapper_more.
Import Py llm_wrapper fixtures llm_wrapper_lifecycle vocabulary llm_wrapper_spec.

(** ** The client configuration after a claim *)

Lemma mirror_parameters_lookup (p g : gmap string pyval) (keys : list string) (k : string) :
  mirror_parameters p g keys !! k
  = if bool_decide (k ∈ keys)
    then match p !! k with Some v => Some v | None => g !! k end
    else g !! k.
Proof.
  unfold mirror_parameters. revert g. induction keys as [|a keys IH]; intros g.
  - reflexivity.
  - cbn [foldl]. rewrite IH. clear IH.
    destruct (decide (k = a)) as [->|Hka].
    + rewrite (bool_decide_eq_true_2 (a ∈ a :: keys)) by (apply elem_of_cons; now left).
      destruct (p !! a) as [v|] eqn:Hpa.
      * rewrite lookup_insert_eq. now destruct (bool_decide (a ∈ keys)).
      * now destruct (bool_decide (a ∈ keys)).
    + assert (Hiff : k ∈ a :: keys <-> k ∈ keys).
      { rewrite elem_of_cons. split; [intros [? | ?]; [contradiction | assumption] | now right]. }
      rewrite (bool_decide_ext _ _ Hiff).
      destruct (p !! a) as [v|]; [rewrite lookup_insert_ne by congruence|]; reflexivity.
Qed.

Lemma claimed_global_lookup (s : openai_api) (g : gmap string pyval) (k : string) :
  claimed_global s g !! k
  = if decide (k = "api_base") then Some (VStr (api_base s))
    else if decide (k = "api_key") then Some (VStr (api_key s))
    else if decide (k = "model") then Some (model s)
    else if bool_decide (k ∈ OPENAI_GLOBALS)
         then match parameters s !! k with Some v => Some v | None => g !! k end
         else g !! k.
Proof.
  unfold claimed_global. rewrite !lookup_insert, mirror_parameters_lookup.
  repeat case_decide; subst; congruence.
Qed.

(** Whatever its outcome, a claim leaves the client configuration as the
    first half of [_claim_global_context] wrote it. *)
Lemma claim_globals (str : pyval -> string) (E : environment) (w : world) :
  openai_api_global (world_of (_claim_global_context str E w))
  = claimed_global (self w) (openai_api_global w).
Proof.
  rewrite claim_run. destruct (truthy (original_model (self w))); cbn [negb];
    [reflexivity|].
  rewrite bind_run.
  pose proof (hosted_model_world E (after_claim w)) as Hw.
  destruct (hosted_model E (after_claim w)) as [m w1 | e w1]; cbn in Hw; subst w1;
    [|reflexivity].
  rewrite bind_run. unfold set_model at 1. cbv beta iota zeta.
  rewrite bind_get_self. cbn [self parameters].
  change (self (after_claim w)) with (self w).
  destruct (parameters (self w) !! "logger") as [lg|]; [destruct lg|]; reflexivity.
Qed.

Lemma after_claim_idempotent (w : world) : after_claim (after_claim w) = after_claim w.
Proof.
  unfold after_claim. cbn [self openai_api_global logged]. f_equal.
  apply map_eq. intros k. rewrite !claimed_global_lookup.
  repeat case_decide; try reflexivity.
  destruct (bool_decide (k ∈ OPENAI_GLOBALS)); [|reflexivity].
  now destruct (parameters (self w) !! k).
Qed.

(** ** Responses with a key missing *)

Lemma lacks_key_getitem (obj key : pyval) :
  lacks_key obj key -> getitem obj key = Err (KeyError key).
Proof.
  intros (d & -> & Hk). cbn [getitem].
  destruct key; try (now rewrite ?Hk); discriminate Hk.
Qed.

Lemma getitem_key_error (obj key k : pyval) :
  getitem obj key = Err (KeyError k) -> lacks_key obj key.
Proof.
  destruct obj; cbn [getitem]; try discriminate.
  - destruct (index_of key); [|discriminate]. now case_match.
  - destruct (index_of key); [|discriminate]. now case_match.
  - intros Hg. exists d. split; [reflexivity|].
    destruct key; cbn [hashable] in *; try reflexivity; try discriminate.
    now destruct (d !! s).
Qed.

Lemma getitem_not_runtime_error (obj key : pyval) (args : list pyval) :
  getitem obj key <> Err (RuntimeError args).
Proof.
  destruct obj; cbn [getitem]; try discriminate.
  - destruct (index_of key); [|discriminate]. now case_match.
  - destruct (index_of key); [|discriminate]. now case_match.
  - destruct key; cbn [hashable]; try discriminate. now destruct (d !! s).
Qed.

(** A chain of subscripts raises KeyError exactly when a mapping on the
    way lacks its key, and never a RuntimeError. *)
Lemma subscripts_key_error (path : list pyval) (obj : pyval) :
  (exists k, subscripts path obj = Err (KeyError k)) <-> key_missing path obj.
Proof.
  revert obj. induction path as [|key rest IH]; intros obj; cbn [subscripts key_missing].
  - split; [intros [k Hk]; discriminate Hk | contradiction].
  - rewrite result_bind_run. destruct (getitem obj key) as [v|e] eqn:Hg.
    + rewrite IH. split.
      * intros Hm. right. now exists v.
      * intros [Hl | (v' & [= <-] & Hm)]; [|exact Hm].
        apply lacks_key_getitem in Hl. congruence.
    + split.
      * intros [k [= ->]]. left. now apply (getitem_key_error obj key k).
      * intros [Hl | (v' & Hv & _)]; [|discriminate Hv].
        apply lacks_key_getitem in Hl. exists key. congruence.
Qed.

Lemma subscripts_not_runtime_error (path : list pyval) (obj : pyval) (args : list pyval) :
  subscripts path obj <> Err (RuntimeError args).
Proof.
  revert obj. induction path as [|key rest IH]; intros obj; cbn [subscripts].
  - discriminate.
  - rewrite result_bind_run. destruct (getitem obj key) as [v|e] eqn:Hg; [apply IH|].
    rewrite <- Hg. apply getitem_not_runtime_error.
Qed.

Lemma first_choice_text_subscripts (repr : pyval -> string) (response : pyval) :
  first_choice_text repr response
  = match subscripts [VStr "choices"; VInt 0; VStr "text"] response with
    | Err (KeyError _) =>
        Err (RuntimeError [VStr
          ("Response does not appear to be an OpenAI API completion structure, as expected:"
           ++ nl ++ repr response)])
    | r => r
    end.
Proof.
  unfold first_choice_text. cbn [subscripts]. rewrite !result_bind_run.
  destruct (getitem response _) as [c|e]; [|reflexivity].
  rewrite !result_bind_run.
  destruct (getitem c _) as [f|e]; [|reflexivity].
  rewrite !result_bind_run.
  destruct (getitem f _); reflexivity.
Qed.

Lemma first_choice_message_subscripts (repr : pyval -> string) (response : pyval) :
  first_choice_message repr response
  = match subscripts [VStr "choices"; VInt 0; VStr "message"; VStr "content"] response with
    | Err (KeyError _) =>
        Err (RuntimeError [VStr
          ("Response does not appear to be an OpenAI API chat-style completion structure, as expected:"
           ++ nl ++ repr response)])
    | r => r
    end.
Proof.
  unfold first_choice_message. cbn [subscripts]. rewrite !result_bind_run.
  destruct (getitem response _) as [c|e]; [|reflexivity].
  rewrite !result_bind_run.
  destruct (getitem c _) as [f|e]; [|reflexivity].
  rewrite !result_bind_run.
  destruct (getitem f _) as [m|e]; [|reflexivity].
  rewrite !result_bind_run.
  destruct (getitem m _); reflexivity.
Qed.

(** What the handler of the two helpers makes of a chain of subscripts. *)
Lemma handled_subscripts (path : list pyval) (response : pyval) (args : list pyval) :
  let handled := match subscripts path response with
                 | Err (KeyError _) => Err (RuntimeError args)
                 | r => r
                 end in
  (key_missing path response <-> handled = Err (RuntimeError args))
  /\ forall key, handled <> Err (KeyError key).
Proof.
  cbv zeta.
  pose proof (proj2 (subscripts_key_error path response)) as Hmissing.
  pose proof (proj1 (subscripts_key_error path response)) as Hkey.
  pose proof (subscripts_not_runtime_error path response args) as Hrt.
  destruct (subscripts path response) as [v|e].
  - split; [|discriminate].
    split; [intros Hm; destruct (Hmissing Hm) as [k Hk]; discriminate Hk | discriminate].
  - destruct e;
      try (split; [|discriminate];
           split; [intros Hm; destruct (Hmissing Hm) as [k Hk]; discriminate Hk
                  | intros Heq; try discriminate Heq; contradiction]).
    split; [|discriminate].
    split; [reflexivity | intros _; apply Hkey; now eexists].
Qed.

(** X10: a key missing anywhere on the path that an extraction helper
    follows ([choices], 0, [text] for a completion; [choices], 0,
    [message], [content] for a chat) is reported as the RuntimeError whose
    message ends with the [repr] of the response, and neither helper raises
    that RuntimeError for any other response, nor a KeyError for any
    response at all. *)
Theorem first_choice_reports_missing_key (repr : pyval -> string) (response : pyval) :
  (key_missing [VStr "choices"; VInt 0; VStr "text"] response
   <-> first_choice_text repr response
       = Err (RuntimeError [VStr
           ("Response does not appear to be an OpenAI API completion structure, as expected:"
            ++ nl ++ repr response)]))
  /\ (key_missing [VStr "choices"; VInt 0; VStr "message"; VStr "content"] response
      <-> first_choice_message repr response
          = Err (RuntimeError [VStr
              ("Response does not appear to be an OpenAI API chat-style completion structure, as expected:"
               ++ nl ++ repr response)]))
  /\ (forall key, first_choice_text repr response <> Err (KeyError key))
  /\ (forall key, first_choice_message repr response <> Err (KeyError key)).
Proof.
  rewrite first_choice_text_subscripts, first_choice_message_subscripts.
  match goal with |- (_ <-> _ = Err (RuntimeError ?a1)) /\ (_ <-> _ = Err (RuntimeError ?a2)) /\ _ =>
    destruct (handled_subscripts [VStr "choices"; VInt 0; VStr "text"] response a1)
      as [Ht1 Ht2];
    destruct (handled_subscripts [VStr "choices"; VInt 0; VStr "message"; VStr "content"]
                response a2) as [Hm1 Hm2]
  end.
  split; [exact Ht1|]. split; [exact Hm1|]. split; [exact Ht2 | exact Hm2].
Qed.

Lemma first_choice_reports_missing_key_witness :
  first_choice_text plain_repr (VDict {[ "choices" := VList [VDict ∅] ]})
  = Err (RuntimeError [VStr
      ("Response does not appear to be an OpenAI API completion structure, as expected:"
       ++ nl ++ "<response>")])
  /\ first_choice_message plain_repr
       (VDict {[ "choices" := VList [VDict {[ "message" := VDict ∅ ]}] ]})
     = Err (RuntimeError [VStr
         ("Response does not appear to be an OpenAI API chat-style completion structure, as expected:"
          ++ nl ++ "<response>")]).
Proof.
  split.
  - apply (proj1 (first_choice_reports_missing_key plain_repr
                    (VDict {[ "choices" := VList [VDict ∅] ]}))).
    right. eexists. split; [reflexivity|].
    right. eexists. split; [reflexivity|].
    left. exists ∅. split; reflexivity.
  - apply (proj1 (proj2 (first_choice_reports_missing_key plain_repr
                    (VDict {[ "choices" := VList [VDict {[ "message" := VDict ∅ ]}] ]})))).
    right. eexists. split; [reflexivity|].
    right. eexists. split; [reflexivity|].
    right. eexists. split; [reflexivity|].
    left. exists ∅. split; reflexivity.
Defined.

Lemma hosted_model_run (E : environment) (w : world) (i : string) :
  lists_first E w (VStr i) ->
  hosted_model E w
  = Returned (if Nat.ltb 1 (String.length i) then VStr i else model (self w)) w.
Proof.
  intros (Hx & d & first & others & Hget & Hdata & Hid).
  unfold hosted_model.
  rewrite bind_run, (available_models_first_id E w d first others (VStr i) Hx Hget Hdata Hid).
  rewrite bind_lift. cbn [len].
  destruct (Nat.ltb 1 (String.length i)); reflexivity.
Qed.

(** X11: when the first entry of the model listing has the string [i] as
    its identifier, [hosted_model] returns [i] if it has at least two
    characters and the wrapper's current model otherwise (the test
    [len(models) > 1] is made on that identifier); the wrapper and the
    client configuration are left as they were. *)
Theorem hosted_model_first_identifier (E : environment) (w : world) (i : string) :
  lists_first E w (VStr i) ->
  hosted_model E w
  = Returned (if Nat.ltb 1 (String.length i) then VStr i else model (self w)) w.
Proof. apply hosted_model_run. Qed.

Lemma hosted_model_first_identifier_witness :
  hosted_model (endpoint (listing_of ["m"; "model-b"]) failing_api) unpinned_wrapper
  = Returned (VStr "old-model") unpinned_wrapper
  /\ hosted_model (endpoint (listing_of ["model-a"]) failing_api) unpinned_wrapper
     = Returned (VStr "model-a") unpinned_wrapper.
Proof.
  split.
  - apply (hosted_model_first_identifier
             (endpoint (listing_of ["m"; "model-b"]) failing_api) unpinned_wrapper "m").
    split; [reflexivity|].
    exists {[ "data" := VList [VDict {[ "id" := VStr "m" ]}; VDict {[ "id" := VStr "model-b" ]}] ]},
           {[ "id" := VStr "m" ]}, [VDict {[ "id" := VStr "model-b" ]}].
    repeat split; reflexivity.
  - apply (hosted_model_first_identifier
             (endpoint (listing_of ["model-a"]) failing_api) unpinned_wrapper "model-a").
    split; [reflexivity|].
    exists {[ "data" := VList [VDict {[ "id" := VStr "model-a" ]}] ]},
           {[ "id" := VStr "model-a" ]}, [].
    repeat split; reflexivity.
Defined.

(** X12: after [_claim_global_context], whether it returned or raised,
    the client configuration holds the wrapper's [api_base] and [api_key]
    (even when the parameters carry other values under these keys), under
    [model] the model the wrapper had when the claim began, under every
    other recognised key the wrapper's parameter if it has one, and what it
    held before under every remaining key. *)
Theorem claim_writes_configuration (str : pyval -> string) (E : environment)
    (w : world) (k : string) :
  openai_api_global (world_of (_claim_global_context str E w)) !! k
  = if decide (k = "api_base") then Some (VStr (api_base (self w)))
    else if decide (k = "api_key") then Some (VStr (api_key (self w)))
    else if decide (k = "model") then Some (model (self w))
    else if bool_decide (k ∈ OPENAI_GLOBALS)
         then match parameters (self w) !! k with
              | Some v => Some v
              | None => openai_api_global w !! k
              end
         else openai_api_global w !! k.
Proof. rewrite claim_globals. apply claimed_global_lookup. Qed.

(** X13: for a wrapper that was given a model name, claiming the client
    configuration twice in a row is the same as claiming it once. *)
Theorem claim_twice_is_claim_once (str : pyval -> string) (E : environment) (w : world) :
  pinned w ->
  (_claim_global_context str E ;; _claim_global_context str E) w
  = _claim_global_context str E w.
Proof.
  intros Hpin. rewrite bind_run, (claim_pinned str E w Hpin).
  rewrite (claim_pinned str E (after_claim w)) by exact Hpin.
  now rewrite after_claim_idempotent.
Qed.

Lemma claim_twice_is_claim_once_witness :
  let w := pinned_wrapper {[ "organization" := VStr "org-A" ]} in
  (_claim_global_context plain_str (endpoint VNone failing_api) ;;
   _claim_global_context plain_str (endpoint VNone failing_api)) w
  = _claim_global_context plain_str (endpoint VNone failing_api) w.
Proof.
  apply (claim_twice_is_claim_once plain_str (endpoint VNone failing_api)
           (pinned_wrapper {[ "organization" := VStr "org-A" ]})).
  reflexivity.
Defined.

(** X14: the client configuration is shared by the wrappers of a process.
    When one wrapper has claimed it and then another wrapper [sB] claims
    it, [api_key] and [api_base] are those of [sB], but a recognised
    setting that only the first wrapper has among its parameters stays in
    force. *)
Theorem claim_keeps_setting_of_other_wrapper (str : pyval -> string) (E : environment)
    (wA w1 w2 : world) (sB : openai_api) (k : string) (v : pyval) :
  _claim_global_context str E wA = Returned tt w1 ->
  _claim_global_context str E (switch_to sB w1) = Returned tt w2 ->
  k ∈ OPENAI_GLOBALS -> k <> "api_key" -> k <> "api_base" ->
  parameters (self wA) !! k = Some v ->
  parameters sB !! k = None ->
  openai_api_global w2 !! k = Some v
  /\ openai_api_global w2 !! "api_key" = Some (VStr (api_key sB))
  /\ openai_api_global w2 !! "api_base" = Some (VStr (api_base sB)).
Proof.
  intros HA HB Hk Hkey Hbase HpA HpB.
  pose proof (claim_globals str E wA) as H1. rewrite HA in H1. cbn [world_of] in H1.
  pose proof (claim_globals str E (switch_to sB w1)) as H2. rewrite HB in H2.
  cbn [world_of switch_to self openai_api_global] in H2.
  assert (Hmodel : k <> "model").
  { intros ->. revert Hk. unfold OPENAI_GLOBALS. rewrite !elem_of_cons, elem_of_nil.
    intros H. repeat (destruct H as [H | H]; [discriminate H|]). exact H. }
  rewrite H2, H1, !claimed_global_lookup.
  split; [|split; reflexivity].
  rewrite !(bool_decide_eq_true_2 _ Hk), HpB, HpA.
  repeat case_decide; congruence.
Qed.

Lemma claim_keeps_setting_of_other_wrapper_witness :
  let E := endpoint VNone failing_api in
  let wA := pinned_wrapper {[ "organization" := VStr "org-A" ]} in
  let sB := mk_openai_api (VStr "model-B") (VStr "model-B") ∅ "key-B" "http://b.example/v1" in
  let w2 := after_claim (switch_to sB (after_claim wA)) in
  openai_api_global w2 !! "organization" = Some (VStr "org-A")
  /\ openai_api_global w2 !! "api_key" = Some (VStr "key-B")
  /\ openai_api_global w2 !! "api_base" = Some (VStr "http://b.example/v1").
Proof.
  cbv zeta.
  apply (claim_keeps_setting_of_other_wrapper plain_str (endpoint VNone failing_api)
           (pinned_wrapper {[ "organization" := VStr "org-A" ]})
           (after_claim (pinned_wrapper {[ "organization" := VStr "org-A" ]}))
           _
           (mk_openai_api (VStr "model-B") (VStr "model-B") ∅ "key-B" "http://b.example/v1")
           "organization" (VStr "org-A")).
  - reflexivity.
  - reflexivity.
  - unfold OPENAI_GLOBALS. rewrite !elem_of_cons. tauto.
  - discriminate.
  - discriminate.
  - reflexivity.
  - reflexivity.
Defined.

(** ** Requests and responses of a call *)

Lemma eq_str_true (v : pyval) (s : string) : eq_str v s = true <-> v = VStr s.
Proof.
  destruct v; cbn [eq_str]; try (split; [discriminate | intros [=]]).
  rewrite String.eqb_eq. split; [now intros -> | now intros [= ->]].
Qed.

Lemma explicit_keywords_union (a b : string) (x y : pyval) (m : gmap string pyval) :
  (list_to_map [(a, x); (b, y)] : gmap string pyval) ∪ m = <[a := x]> (<[b := y]> m).
Proof.
  cbn [list_to_map foldr fst snd uncurry].
  now rewrite <- !insert_union_l, (left_id_L ∅ (∪)).
Qed.

Lemma explicit_keywords_disjoint (a b : string) (x y : pyval) (m : gmap string pyval) :
  (list_to_map [(a, x); (b, y)] : gmap string pyval) ##ₘ m
  <-> m !! a = None /\ m !! b = None.
Proof.
  rewrite map_disjoint_alt. split.
  - intros H. split.
    + destruct (H a) as [Ha | Ha]; [|exact Ha].
      rewrite explicit_keywords_lookup in Ha. now case_decide.
    + destruct (H b) as [Hb | Hb]; [|exact Hb].
      rewrite explicit_keywords_lookup in Hb. repeat case_decide; congruence.
  - intros [Ha Hb] i. rewrite explicit_keywords_lookup.
    repeat case_decide; subst; auto.
Qed.

(** The request of a completion call, when no keyword is called [model]
    or [prompt]. *)
Lemma completion_request_ok (prompt : string) (kwargs : gmap string pyval) (s : openai_api) :
  (kwargs ∪ parameters s) !! "model" = None ->
  (kwargs ∪ parameters s) !! "prompt" = None ->
  completion_request prompt kwargs s
  = Ok (<["model" := model s]> (<["prompt" := VStr prompt]> (kwargs ∪ parameters s))).
Proof.
  intros Hm Hp. unfold completion_request. cbn [unpack_keywords].
  rewrite decide_True by now apply explicit_keywords_disjoint.
  now rewrite explicit_keywords_union.
Qed.

Lemma completion_request_clash (prompt : string) (kwargs : gmap string pyval)
    (s : openai_api) :
  is_Some ((kwargs ∪ parameters s) !! "model")
  \/ is_Some ((kwargs ∪ parameters s) !! "prompt") ->
  completion_request prompt kwargs s = Err TypeError.
Proof.
  intros H. unfold completion_request. cbn [unpack_keywords].
  rewrite decide_False; [reflexivity|].
  rewrite explicit_keywords_disjoint. intros [Hm Hp].
  destruct H as [[v Hv] | [v Hv]]; congruence.
Qed.

(** A call whose request cannot be assembled. *)
Lemma completion_call_request_error (str : pyval -> string) (E : environment)
    (prompt : string) (api_func : option api_function) (kwargs : gmap string pyval)
    (w w1 : world) (e : exn) :
  _claim_global_context str E w = Returned tt w1 ->
  completion_request prompt kwargs (self w1) = Err e ->
  openai_api__call__ str E prompt api_func kwargs w = Raised e w1.
Proof.
  intros Hclaim Hreq. unfold completion_request in Hreq.
  unfold openai_api__call__, call. cbv zeta.
  rewrite bind_run, Hclaim. cbv beta iota.
  now rewrite bind_get_self, bind_run, bind_lift, Hreq.
Qed.

(** For a wrapper with a model of its own the API function is reached as
    soon as the request can be assembled. *)
Lemma pinned_api_call (str : pyval -> string) (E : environment)
    (request : openai_api -> result (gmap string pyval)) (f : api_function)
    (w : world) (kw : gmap string pyval) :
  pinned w -> request (self w) = Ok kw ->
  api_call_gives str E request f w (after_claim w)
                 (f (openai_api_global (after_claim w)) kw).
Proof.
  intros Hpin Hreq. split; [now apply claim_pinned|].
  exists kw. split; [exact Hreq | reflexivity].
Qed.

(** X15: a completion call that reaches the API function returns the
    response as the function gave it whenever the response is a mapping
    whose model field is not the placeholder HOSTED_MODEL (a mapping
    without that field included); a response that is not a mapping makes
    the call raise AttributeError. *)
Theorem completion_call_passes_response_through (str : pyval -> string) (E : environment)
    (prompt : string) (api_func : option api_function) (kwargs : gmap string pyval)
    (w w1 : world) (response : pyval) :
  api_call_gives str E (completion_request prompt kwargs)
                 (default (Completion_create E) api_func) w w1 (Ok response) ->
  (forall d, response = VDict d -> d !! "model" <> Some (VStr "HOSTED_MODEL") ->
     openai_api__call__ str E prompt api_func kwargs w = Returned response w1)
  /\ ((forall d, response <> VDict d) ->
      openai_api__call__ str E prompt api_func kwargs w = Raised AttributeError w1).
Proof.
  intros Hcall. rewrite (completion_call_run _ _ _ _ _ _ _ _ Hcall). split.
  - intros d -> Hd. cbn [get].
    destruct (eq_str (default VNone (d !! "model")) "HOSTED_MODEL") eqn:Heq; [|reflexivity].
    apply eq_str_true in Heq. destruct (d !! "model"); cbn in Heq; congruence.
  - intros Hnd. destruct response; try reflexivity. now contradiction (Hnd d).
Qed.

Lemma completion_call_passes_response_through_witness :
  let E := endpoint VNone (stub_api no_choices) in
  let w := pinned_wrapper ∅ in
  openai_api__call__ plain_str E "Knock knock!" None ∅ w = Returned no_choices (after_claim w)
  /\ openai_api__call__ plain_str (endpoint VNone (stub_api VNone)) "Knock knock!" None ∅ w
     = Raised AttributeError (after_claim w).
Proof.
  cbv zeta. split.
  - refine (proj1 (completion_call_passes_response_through plain_str
              (endpoint VNone (stub_api no_choices)) "Knock knock!" None ∅ (pinned_wrapper ∅)
              (after_claim (pinned_wrapper ∅)) no_choices _) _ eq_refl _).
    + apply (pinned_api_call plain_str _ (completion_request "Knock knock!" ∅)
               (stub_api no_choices) (pinned_wrapper ∅)
               (<["model" := VStr "my-model"]> {[ "prompt" := VStr "Knock knock!" ]}));
        [reflexivity | vm_compute; reflexivity].
    + vm_compute. discriminate.
  - refine (proj2 (completion_call_passes_response_through plain_str
              (endpoint VNone (stub_api VNone)) "Knock knock!" None ∅ (pinned_wrapper ∅)
              (after_claim (pinned_wrapper ∅)) VNone _) _).
    + apply (pinned_api_call plain_str _ (completion_request "Knock knock!" ∅)
               (stub_api VNone) (pinned_wrapper ∅)
               (<["model" := VStr "my-model"]> {[ "prompt" := VStr "Knock knock!" ]}));
        [reflexivity | vm_compute; reflexivity].
    + discriminate.
Defined.

(** X16: the names [prompt] and [model] are not free for the keywords of
    a completion call [self(prompt, **keywords)].  A keyword called
    [prompt] collides with the parameter of [__call__]: the call raises
    TypeError before its body runs, so nothing is claimed and the wrapper
    and the client configuration are untouched.  For a wrapper with a model
    of its own, a keyword called [model], or a stored parameter called
    [model] or [prompt], passes the binding and collides in the request
    instead: the call raises TypeError once the configuration is claimed.
    In neither case is the API function reached. *)
Theorem completion_call_reserved_keyword (str : pyval -> string) (E : environment)
    (prompt : string) (keywords : gmap string pyval) (w : world) :
  (is_Some (keywords !! "prompt") ->
   openai_api_invoke str E prompt keywords w = Raised TypeError w)
  /\ (pinned w ->
      keywords !! "self" = None ->
      keywords !! "prompt" = None ->
      is_Some (keywords !! "model")
      \/ is_Some (parameters (self w) !! "model")
      \/ is_Some (parameters (self w) !! "prompt") ->
      openai_api_invoke str E prompt keywords w = Raised TypeError (after_claim w)).
Proof.
  split.
  - intros Hp. unfold openai_api_invoke. now rewrite decide_True by now right.
  - intros Hpin Hs Hp Hclash. unfold openai_api_invoke.
    rewrite decide_False by (rewrite Hs, Hp; intros [H | H]; now apply is_Some_None in H).
    assert (Hreq : forall kw : gmap string pyval,
               kw !! "model" = keywords !! "model" ->
               kw !! "prompt" = None ->
               openai_api__call__ str E prompt None kw w = Raised TypeError (after_claim w)).
    { intros kw Hkm Hkp.
      apply completion_call_request_error; [now apply claim_pinned|].
      apply completion_request_clash. cbn [after_claim self].
      rewrite !lookup_union_is_Some, Hkm, Hkp.
      destruct Hclash as [H | [H | H]]; [left; now left | left; now right | right; now right]. }
    destruct (keywords !! "api_func") as [v|] eqn:Hv.
    + destruct (truthy v).
      * now rewrite bind_run, (claim_pinned str E w Hpin).
      * apply Hreq; now rewrite lookup_delete_ne by discriminate.
    + now apply Hreq.
Qed.

Lemma completion_call_reserved_keyword_witness :
  openai_api_invoke plain_str (endpoint VNone echo_api) "Knock knock!"
    {[ "prompt" := VStr "Who is there?" ]} (pinned_wrapper ∅)
  = Raised TypeError (pinned_wrapper ∅)
  /\ openai_api_invoke plain_str (endpoint VNone echo_api) "Knock knock!"
       {[ "model" := VStr "other-model" ]} (pinned_wrapper ∅)
     = Raised TypeError (after_claim (pinned_wrapper ∅)).
Proof.
  split.
  - apply (proj1 (completion_call_reserved_keyword plain_str (endpoint VNone echo_api)
                    "Knock knock!" {[ "prompt" := VStr "Who is there?" ]} (pinned_wrapper ∅))).
    exists (VStr "Who is there?"). reflexivity.
  - apply (proj2 (completion_call_reserved_keyword plain_str (endpoint VNone echo_api)
                    "Knock knock!" {[ "model" := VStr "other-model" ]} (pinned_wrapper ∅))).
    + reflexivity.
    + reflexivity.
    + reflexivity.
    + left. exists (VStr "other-model"). reflexivity.
Defined.

(** X17: what a completion call asks of the API function, read off an
    API function that answers with the keyword arguments it received: for a
    wrapper with a model of its own and no keyword called [model] or
    [prompt], the request has the wrapper's model under [model], the prompt
    under [prompt], and under every other key the call-time value if there
    is one and the stored parameter otherwise. *)
Theorem completion_call_request_contents (str : pyval -> string) (E : environment)
    (prompt : string) (kwargs : gmap string pyval) (w : world) :
  pinned w ->
  (kwargs ∪ parameters (self w)) !! "model" = None ->
  (kwargs ∪ parameters (self w)) !! "prompt" = None ->
  exists kw,
    openai_api__call__ str E prompt (Some echo_api) kwargs w
    = Returned (VDict kw) (after_claim w)
    /\ kw !! "model" = Some (model (self w))
    /\ kw !! "prompt" = Some (VStr prompt)
    /\ forall k, k <> "model" -> k <> "prompt" ->
         kw !! k = match kwargs !! k with
                   | Some v => Some v
                   | None => parameters (self w) !! k
                   end.
Proof.
  intros Hpin Hm Hp.
  exists (<["model" := model (self w)]>
            (<["prompt" := VStr prompt]> (kwargs ∪ parameters (self w)))).
  split; [|split; [|split]].
  - pose proof (pinned_api_call str E (completion_request prompt kwargs) echo_api w _
                  Hpin (completion_request_ok prompt kwargs (self w) Hm Hp)) as Hcall.
    rewrite (completion_call_run str E prompt (Some echo_api) kwargs w _ _ Hcall).
    unfold echo_api. cbn [get]. rewrite lookup_insert_eq. cbn [default].
    destruct (eq_str _ "HOSTED_MODEL"); [|reflexivity].
    cbn [setitem lift self after_claim]. now rewrite insert_insert_eq.
  - apply lookup_insert_eq.
  - rewrite lookup_insert_ne by discriminate. apply lookup_insert_eq.
  - intros k Hk1 Hk2. rewrite !lookup_insert_ne by congruence.
    rewrite lookup_union. now destruct (kwargs !! k), (parameters (self w) !! k).
Qed.

Lemma completion_call_request_contents_witness :
  exists kw,
    openai_api__call__ plain_str (endpoint VNone echo_api) "Knock knock!" (Some echo_api)
      {[ "max_tokens" := VInt 256 ]}
      (pinned_wrapper (<["max_tokens" := VInt 128]> {[ "top_k" := VInt 40 ]}))
    = Returned (VDict kw)
        (after_claim (pinned_wrapper (<["max_tokens" := VInt 128]> {[ "top_k" := VInt 40 ]})))
    /\ kw !! "max_tokens" = Some (VInt 256)
    /\ kw !! "top_k" = Some (VInt 40).
Proof.
  destruct (completion_call_request_contents plain_str (endpoint VNone echo_api)
              "Knock knock!" {[ "max_tokens" := VInt 256 ]}
              (pinned_wrapper (<["max_tokens" := VInt 128]> {[ "top_k" := VInt 40 ]})))
    as (kw & Hcall & _ & _ & Hk).
  - reflexivity.
  - vm_compute. reflexivity.
  - vm_compute. reflexivity.
  - exists kw. split; [exact Hcall|]. split.
    + rewrite (Hk "max_tokens") by discriminate. reflexivity.
    + rewrite (Hk "top_k") by discriminate. reflexivity.
Defined.

(** X18: what a chat call asks of the API function, read off the same
    way: for a wrapper with a model of its own, when no key is both stored
    and given at call time and none is called [model] or [messages], the
    request has the wrapper's model, the messages, and every stored and
    every call-time parameter; the response comes back as it is. *)
Theorem chat_call_request_contents (str : pyval -> string) (E : environment)
    (messages : pyval) (kwargs : gmap string pyval) (w : world) :
  pinned w ->
  parameters (self w) ##ₘ kwargs ->
  (parameters (self w) ∪ kwargs) !! "model" = None ->
  (parameters (self w) ∪ kwargs) !! "messages" = None ->
  exists kw,
    openai_chat_api__call__ str E messages (Some echo_api) kwargs w
    = Returned (VDict kw) (after_claim w)
    /\ kw !! "model" = Some (model (self w))
    /\ kw !! "messages" = Some messages
    /\ forall k, k <> "model" -> k <> "messages" ->
         kw !! k = match parameters (self w) !! k with
                   | Some v => Some v
                   | None => kwargs !! k
                   end.
Proof.
  intros Hpin Hdis Hm Hp.
  apply lookup_union_None in Hm as [Hm1 Hm2]. apply lookup_union_None in Hp as [Hp1 Hp2].
  exists (<["model" := model (self w)]>
            (<["messages" := messages]> (parameters (self w) ∪ kwargs))).
  split; [|split; [|split]].
  - assert (Hreq : chat_request messages kwargs (self w)
                   = Ok (<["model" := model (self w)]>
                           (<["messages" := messages]> (parameters (self w) ∪ kwargs)))).
    { unfold chat_request. cbn [unpack_keywords].
      rewrite decide_True by now apply explicit_keywords_disjoint.
      rewrite explicit_keywords_union.
      rewrite decide_True.
      - now rewrite <- !insert_union_l.
      - apply map_disjoint_insert_l_2; [exact Hm2|].
        apply map_disjoint_insert_l_2; [exact Hp2 | exact Hdis]. }
    pose proof (pinned_api_call str E (chat_request messages kwargs) echo_api w _
                  Hpin Hreq) as Hcall.
    now rewrite (chat_call_run str E messages (Some echo_api) kwargs w _ _ Hcall).
  - apply lookup_insert_eq.
  - rewrite lookup_insert_ne by discriminate. apply lookup_insert_eq.
  - intros k Hk1 Hk2. rewrite !lookup_insert_ne by congruence.
    rewrite lookup_union. now destruct (parameters (self w) !! k), (kwargs !! k).
Qed.

Lemma chat_call_request_contents_witness :
  exists kw,
    openai_chat_api__call__ plain_str (endpoint VNone echo_api) knock_knock_chat
      (Some echo_api) {[ "max_tokens" := VInt 256 ]} (pinned_wrapper {[ "top_k" := VInt 40 ]})
    = Returned (VDict kw) (after_claim (pinned_wrapper {[ "top_k" := VInt 40 ]}))
    /\ kw !! "messages" = Some knock_knock_chat.
Proof.
  destruct (chat_call_request_contents plain_str (endpoint VNone echo_api)
              knock_knock_chat {[ "max_tokens" := VInt 256 ]}
              (pinned_wrapper {[ "top_k" := VInt 40 ]})) as (kw & Hcall & _ & Hmsg & _).
  - reflexivity.
  - apply map_disjoint_singleton_l. reflexivity.
  - vm_compute. reflexivity.
  - vm_compute. reflexivity.
  - exists kw. split; [exact Hcall | exact Hmsg].
Defined.

(** X19: a wrapper that was given a model name never asks the endpoint
    for its models during a call: with the same completion functions, a
    completion call and a chat call give the same outcome whatever the
    availability of httpx and whatever the model listing. *)
Theorem pinned_call_ignores_endpoint (str : pyval -> string) (E E' : environment)
    (prompt : string) (messages : pyval) (api_func : option api_function)
    (kwargs : gmap string pyval) (w : world) :
  pinned w ->
  Completion_create E = Completion_create E' ->
  ChatCompletion_create E = ChatCompletion_create E' ->
  openai_api__call__ str E prompt api_func kwargs w
  = openai_api__call__ str E' prompt api_func kwargs w
  /\ openai_chat_api__call__ str E messages api_func kwargs w
     = openai_chat_api__call__ str E' messages api_func kwargs w.
Proof.
  intros Hpin Hc Hch. unfold openai_api__call__, openai_chat_api__call__. cbv zeta.
  rewrite !bind_run, !(claim_pinned str E w Hpin), !(claim_pinned str E' w Hpin).
  now rewrite Hc, Hch.
Qed.

Lemma pinned_call_ignores_endpoint_witness :
  let E := mk_environment false (fun _ => Err (UpstreamError "down")) echo_api echo_api in
  let E' := endpoint (listing_of ["model-a"]) echo_api in
  openai_api__call__ plain_str E "Knock knock!" None ∅ (pinned_wrapper ∅)
  = openai_api__call__ plain_str E' "Knock knock!" None ∅ (pinned_wrapper ∅).
Proof.
  cbv zeta.
  apply (pinned_call_ignores_endpoint plain_str
           (mk_environment false (fun _ => Err (UpstreamError "down")) echo_api echo_api)
           (endpoint (listing_of ["model-a"]) echo_api)
           "Knock knock!" knock_knock_chat None ∅ (pinned_wrapper ∅));
    reflexivity.
Defined.

(** X20: a wrapper that was not given a model name needs httpx on every
    call: without it a completion call and a chat call raise the
    RuntimeError that asks for httpx, after the configuration was written
    and before the API function is reached; the wrapper is unchanged. *)
Theorem unpinned_call_needs_httpx (str : pyval -> string) (E : environment)
    (prompt : string) (messages : pyval) (api_func : option api_function)
    (kwargs : gmap string pyval) (w : world) :
  truthy (original_model (self w)) = false ->
  httpx_installed E = false ->
  openai_api__call__ str E prompt api_func kwargs w
  = Raised (RuntimeError [VStr "Needs httpx installed. Try pip install httpx"]) (after_claim w)
  /\ openai_chat_api__call__ str E messages api_func kwargs w
     = Raised (RuntimeError [VStr "Needs httpx installed. Try pip install httpx"])
              (after_claim w).
Proof.
  intros Hun Hx.
  assert (Hclaim : _claim_global_context str E w
                   = Raised (RuntimeError [VStr "Needs httpx installed. Try pip install httpx"])
                            (after_claim w)).
  { rewrite claim_run, Hun. cbn [negb]. rewrite bind_run.
    unfold hosted_model. rewrite bind_run. unfold available_models. now rewrite Hx. }
  unfold openai_api__call__, openai_chat_api__call__. cbv zeta.
  now rewrite !bind_run, Hclaim.
Qed.

Lemma unpinned_call_needs_httpx_witness :
  let E := mk_environment false (fun _ => Err (UpstreamError "down")) echo_api echo_api in
  openai_api__call__ plain_str E "Knock knock!" None ∅ unpinned_wrapper
  = Raised (RuntimeError [VStr "Needs httpx installed. Try pip install httpx"])
           (after_claim unpinned_wrapper).
Proof.
  cbv zeta.
  apply (unpinned_call_needs_httpx plain_str
           (mk_environment false (fun _ => Err (UpstreamError "down")) echo_api echo_api)
           "Knock knock!" knock_knock_chat None ∅ unpinned_wrapper); reflexivity.
Defined.

Lemma claim_unpinned_run (str : pyval -> string) (E : environment)
    (w : world) (i : string) :
  truthy (original_model (self w)) = false ->
  lists_first E w (VStr i) ->
  1 < String.length i ->
  _claim_global_context str E w
  = match parameters (self w) !! "logger" with
    | None => Returned tt (after_refresh w (VStr i))
    | Some (VLogger name) =>
        Returned tt
          (mk_world (self (after_refresh w (VStr i)))
                    (openai_api_global (after_refresh w (VStr i)))
                    (logged w ++ [(name,
                       "Switching global context to query LLM hosted at "
                       ++ api_base (self w) ++ ", model " ++ str (VStr i))]))
    | Some _ => Raised AttributeError (after_refresh w (VStr i))
    end.
Proof.
  intros Hun Hlist Hlen.
  rewrite claim_run, Hun. cbn [negb]. rewrite bind_run.
  rewrite (hosted_model_run E (after_claim w) i Hlist).
  apply Nat.ltb_lt in Hlen. rewrite Hlen.
  rewrite bind_run. unfold set_model at 1. cbv beta iota zeta.
  rewrite bind_get_self. cbn [self parameters api_base model].
  change (self (after_claim w)) with (self w).
  destruct (parameters (self w) !! "logger") as [lg|]; [destruct lg|]; reflexivity.
Qed.

(** X21: a wrapper that was not given a model name adopts, each time it
    claims the configuration, the first listed identifier when it has at
    least two characters.  Without a [logger] parameter nothing else
    happens; with a logger the switch is reported to it; with a [logger]
    parameter that is no logger the claim raises AttributeError after the
    model was adopted.  The client configuration keeps the model the
    wrapper had before. *)
Theorem claim_adopts_listed_model (str : pyval -> string) (E : environment)
    (w : world) (i : string) :
  truthy (original_model (self w)) = false ->
  lists_first E w (VStr i) ->
  1 < String.length i ->
  _claim_global_context str E w
  = match parameters (self w) !! "logger" with
    | None => Returned tt (after_refresh w (VStr i))
    | Some (VLogger name) =>
        Returned tt
          (mk_world (self (after_refresh w (VStr i)))
                    (openai_api_global (after_refresh w (VStr i)))
                    (logged w ++ [(name,
                       "Switching global context to query LLM hosted at "
                       ++ api_base (self w) ++ ", model " ++ str (VStr i))]))
    | Some _ => Raised AttributeError (after_refresh w (VStr i))
    end.
Proof. apply claim_unpinned_run. Qed.

Lemma claim_adopts_listed_model_witness :
  _claim_global_context plain_str (endpoint (listing_of ["new-model"]) failing_api)
    unpinned_wrapper
  = Returned tt (after_refresh unpinned_wrapper (VStr "new-model")).
Proof.
  apply (claim_adopts_listed_model plain_str (endpoint (listing_of ["new-model"]) failing_api)
           unpinned_wrapper "new-model").
  - reflexivity.
  - split; [reflexivity|].
    exists {[ "data" := VList [VDict {[ "id" := VStr "new-model" ]}] ]},
           {[ "id" := VStr "new-model" ]}, [].
    repeat split; reflexivity.
  - cbn. lia.
Defined.

(** ** Chat conversion and dispatch to a worker *)

(** [prompt_to_chat] gives a list of one message, a mapping of two
    fields; reading it back, the role of that message is "user" and its
    content is the prompt, unchanged. *)
Lemma prompt_to_chat_single_user_message (prompt : string) :
  len (prompt_to_chat prompt) = Ok 1
  /\ (first ← getitem (prompt_to_chat prompt) (VInt 0); len first) = Ok 2
  /\ (first ← getitem (prompt_to_chat prompt) (VInt 0); getitem first (VStr "role"))
     = Ok (VStr "user")
  /\ (first ← getitem (prompt_to_chat prompt) (VInt 0); getitem first (VStr "content"))
     = Ok (VStr prompt).
Proof. repeat split; reflexivity. Qed.

Lemma union_absorb (k p : gmap string pyval) : (k ∪ p) ∪ p = k ∪ p.
Proof.
  apply map_eq. intros i. rewrite !lookup_union.
  now destruct (k !! i), (p !! i).
Qed.

(** Giving a completion call the merged parameters is giving it the
    call-time ones. *)
Lemma completion_call_merged (str : pyval -> string) (E : environment) (prompt : string)
    (api_func : option api_function) (kwargs : gmap string pyval) (w : world) :
  openai_api__call__ str E prompt api_func (kwargs ∪ parameters (self w)) w
  = openai_api__call__ str E prompt api_func kwargs w.
Proof.
  unfold openai_api__call__. cbv zeta. rewrite !bind_run.
  pose proof (claim_frame str E w) as [(_ & Hp & _) _].
  destruct (_claim_global_context str E w) as [[] w1 | e w1]; [|reflexivity].
  cbn [world_of] in Hp. rewrite !bind_get_self, Hp. now rewrite union_absorb.
Qed.


(** A wrapper without a model of its own, in front of an endpoint that
    lists no model, cannot claim the configuration: taking the first entry
    of the empty listing raises StopIteration. *)
Lemma claim_empty_listing (str : pyval -> string) (E : environment) (w : world)
    (d : gmap string pyval) :
  truthy (original_model (self w)) = false ->
  httpx_installed E = true ->
  httpx_get_json E (api_base (self w) ++ "/models") = Ok (VDict d) ->
  d !! "data" = Some (VList []) ->
  _claim_global_context str E w = Raised StopIteration (after_claim w).
Proof.
  intros Hun Hx Hget Hdata. rewrite claim_run, Hun. cbn [negb]. rewrite bind_run.
  unfold hosted_model. rewrite bind_run.
  now rewrite (available_models_empty_listing E (after_claim w) d Hx Hget Hdata).
Qed.

(** X22: for a completion wrapper, when no keyword is called [callable],
    [self], [prompt] or [api_func], [wrap_for_multiproc] returns a task and
    leaves the wrapper and the client configuration of the caller as they
    were, the call being made in a worker.  The task is given the value the
    call itself returns, or the exception it raises, with one exception: a
    StopIteration is never handed to the code that awaits the task.  That
    is what happens for a wrapper without a model of its own in front of an
    endpoint that lists no model. *)
Theorem dispatch_resolves_like_call (str : pyval -> string) (E : environment)
    (prompt : string) (kwargs : gmap string pyval) (w : world) :
  (kwargs ∪ parameters (self w)) !! "callable" = None ->
  (kwargs ∪ parameters (self w)) !! "self" = None ->
  (kwargs ∪ parameters (self w)) !! "prompt" = None ->
  (kwargs ∪ parameters (self w)) !! "api_func" = None ->
  wrap_for_multiproc (openai_api_invoke str E) prompt kwargs w
  = Returned (match openai_api__call__ str E prompt None kwargs w with
              | Returned response _ => Delivered (Ok response)
              | Raised StopIteration _ => Withheld
              | Raised e _ => Delivered (Err e)
              end) w
  /\ (truthy (original_model (self w)) = false ->
      httpx_installed E = true ->
      forall d, httpx_get_json E (api_base (self w) ++ "/models") = Ok (VDict d) ->
                d !! "data" = Some (VList []) ->
                wrap_for_multiproc (openai_api_invoke str E) prompt kwargs w
                = Returned Withheld w).
Proof.
  intros Hc Hs Hp Hf.
  assert (Hrun : wrap_for_multiproc (openai_api_invoke str E) prompt kwargs w
                 = Returned (match openai_api__call__ str E prompt None kwargs w with
                             | Returned response _ => Delivered (Ok response)
                             | Raised StopIteration _ => Withheld
                             | Raised e _ => Delivered (Err e)
                             end) w).
  { unfold wrap_for_multiproc. rewrite bind_get_self. cbv zeta.
    rewrite decide_False by (rewrite Hc; apply is_Some_None).
    unfold schedule_callable, in_worker, openai_api_invoke.
    rewrite decide_False by (rewrite Hs, Hp; intros [H | H]; now apply is_Some_None in H).
    rewrite Hf. now rewrite completion_call_merged. }
  split; [exact Hrun|].
  intros Hun Hx d Hget Hdata. rewrite Hrun.
  unfold openai_api__call__. cbv zeta.
  now rewrite bind_run, (claim_empty_listing str E w d Hun Hx Hget Hdata).
Qed.

Lemma dispatch_resolves_like_call_witness :
  wrap_for_multiproc
    (openai_api_invoke plain_str (endpoint VNone (stub_api hosted_response)))
    "Knock knock!" ∅ (pinned_wrapper {[ "max_tokens" := VInt 128 ]})
  = Returned (Delivered (Ok named_response)) (pinned_wrapper {[ "max_tokens" := VInt 128 ]})
  /\ wrap_for_multiproc
       (openai_api_invoke plain_str (endpoint (listing_of []) echo_api))
       "Knock knock!" ∅ unpinned_wrapper
     = Returned Withheld unpinned_wrapper.
Proof.
  split.
  - refine (eq_trans
              (proj1 (dispatch_resolves_like_call plain_str
                        (endpoint VNone (stub_api hosted_response))
                        "Knock knock!" ∅ (pinned_wrapper {[ "max_tokens" := VInt 128 ]})
                        _ _ _ _)) _);
      vm_compute; reflexivity.
  - refine (proj2 (dispatch_resolves_like_call plain_str
                     (endpoint (listing_of []) echo_api)
                     "Knock knock!" ∅ unpinned_wrapper _ _ _ _)
              _ _ {[ "data" := VList [] ]} _ _);
      vm_compute; reflexivity.
Defined.



(** ** Construction *)

(** The constructor, step by step: the attributes are assigned, the model
    is looked up if none was given, and the configuration is claimed. *)
Lemma init_run (str : pyval -> string) (E : environment) (H : host) (model : pyval)
    (base key : option string) (kwargs g : gmap string pyval)
    (logs : list (string * string)) :
  openai_api__init__ str E H model base key kwargs (mk_world blank g logs)
  = match base_of H base kwargs with
    | Err e => Raised e (mk_world (mk_openai_api VNone VNone kwargs (key_of H key) "") g logs)
    | Ok b =>
        if truthy model then
          _claim_global_context str E (assigned H model model b key kwargs g logs)
        else
          match available_models E (assigned H VNone model b key kwargs g logs) with
          | Returned models _ =>
              match len models with
              | Ok n =>
                  if Nat.ltb 1 n
                  then _claim_global_context str E
                         (assigned H models model b key kwargs g logs)
                  else Raised AttributeError (assigned H VNone model b key kwargs g logs)
              | Err e => Raised e (assigned H VNone model b key kwargs g logs)
              end
          | Raised e _ => Raised e (assigned H VNone model b key kwargs g logs)
          end
    end.
Proof.
  unfold openai_api__init__, assigned, key_of, base_of. cbv zeta.
  rewrite bind_run. unfold set_api_key at 1. cbv beta iota zeta.
  rewrite bind_run. unfold set_parameters at 1. cbv beta iota zeta.
  cbn [self llm_wrapper.model original_model parameters api_key api_base openai_api_global logged blank].
  rewrite bind_run.
  match goal with |- context [match ?m ?w with Returned _ _ => _ | Raised _ _ => _ end] =>
    match m with
    | context [split_uri_ref] =>
        assert (Hbase : m w = lift (base_of H base kwargs) w)
    end
  end.
  { unfold base_of. destruct base as [b|]; [|reflexivity].
    destruct (truthy (VStr b)); [|reflexivity].
    destruct (split_uri_ref H b) as [[[[scheme authority] path] query] fragment].
    reflexivity. }
  unfold base_of in Hbase. rewrite Hbase. clear Hbase.
  rewrite lift_run.
  match goal with |- context [match ?r with Ok _ => Returned _ _ | Err _ => _ end] =>
    destruct r as [b|e] end; [|reflexivity].
  rewrite bind_run. unfold set_api_base at 1. cbv beta iota zeta.
  rewrite bind_run. unfold set_original_model at 1. cbv beta iota zeta.
  cbn [self llm_wrapper.model original_model parameters api_key api_base openai_api_global logged].
  rewrite bind_run.
  destruct (truthy model) eqn:Hm.
  - rewrite ret_run. rewrite bind_run. unfold set_model at 1. reflexivity.
  - rewrite bind_run.
    match goal with |- context [available_models E ?w] =>
      pose proof (available_models_world E w) as Hw;
      destruct (available_models E w) as [models w1 | e w1]
    end; cbn [world_of] in Hw; subst w1; [|reflexivity].
    rewrite bind_lift. destruct (len models) as [n|e]; [|reflexivity].
    destruct (Nat.ltb 1 n); [|reflexivity].
    rewrite ret_run, bind_run. unfold set_model at 1. reflexivity.
Qed.

Lemma init_pinned_run (str : pyval -> string) (E : environment) (H : host)
    (name : pyval) (base key : option string) (kwargs g : gmap string pyval)
    (logs : list (string * string)) (b : string) :
  truthy name = true ->
  base_of H base kwargs = Ok b ->
  openai_api__init__ str E H name base key kwargs (mk_world blank g logs)
  = Returned tt
      (after_claim (mk_world (mk_openai_api name name kwargs (key_of H key) b) g logs)).
Proof.
  intros Hname Hbase. rewrite init_run, Hbase, Hname.
  unfold assigned. rewrite Hname. now apply claim_pinned.
Qed.

(** X24: built with a model name, and with a base URL that resolves to
    [b], the wrapper has that name as its model and as its original model,
    the keyword arguments as its parameters, the resolved key and [b]; the
    client configuration is claimed, and the endpoint is not asked for its
    models: the outcome does not depend on it. *)
Theorem init_with_model (str : pyval -> string) (E : environment) (H : host)
    (name : pyval) (base key : option string) (kwargs g : gmap string pyval)
    (logs : list (string * string)) (b : string) :
  truthy name = true ->
  base_of H base kwargs = Ok b ->
  openai_api__init__ str E H name base key kwargs (mk_world blank g logs)
  = Returned tt
      (after_claim (mk_world (mk_openai_api name name kwargs (key_of H key) b) g logs)).
Proof. apply init_pinned_run. Qed.

Lemma init_with_model_witness :
  openai_api__init__ plain_str (endpoint VNone failing_api) bare_host
    (VStr "gpt-3.5-turbo") None None {[ "organization" := VStr "org-A" ]}
    (mk_world blank ∅ [])
  = Returned tt
      (after_claim
         (mk_world (mk_openai_api (VStr "gpt-3.5-turbo") (VStr "gpt-3.5-turbo")
                                  {[ "organization" := VStr "org-A" ]}
                                  "OPENAI_DUMMY_KEY" "https://api.openai.com/v1")
                   ∅ [])).
Proof.
  apply (init_with_model plain_str (endpoint VNone failing_api) bare_host
           (VStr "gpt-3.5-turbo") None None {[ "organization" := VStr "org-A" ]} ∅ []
           "https://api.openai.com/v1"); reflexivity.
Defined.

(** X25: whenever the constructor returns, the key of the wrapper is the
    key argument if one was given, else the value of OPENAI_API_KEY in the
    environment if it is set, else the placeholder key; the client
    configuration holds that key, the parameters are the keyword arguments,
    and the original model is the model argument, or None if that was
    empty or absent. *)
Theorem init_resolves_key (str : pyval -> string) (E : environment) (H : host)
    (name : pyval) (base key : option string) (kwargs g : gmap string pyval)
    (logs : list (string * string)) (w' : world) :
  openai_api__init__ str E H name base key kwargs (mk_world blank g logs)
  = Returned tt w' ->
  api_key (self w')
  = match key with
    | Some k => k
    | None => match getenv H "OPENAI_API_KEY" with
              | Some k => k
              | None => OPENAI_KEY_DUMMY H
              end
    end
  /\ openai_api_global w' !! "api_key" = Some (VStr (api_key (self w')))
  /\ parameters (self w') = kwargs
  /\ original_model (self w') = (if truthy name then name else VNone).
Proof.
  intros Hinit.
  assert (Hclaim : exists m b,
             _claim_global_context str E (assigned H m name b key kwargs g logs)
             = Returned tt w').
  { rewrite init_run in Hinit.
    destruct (base_of H base kwargs) as [b|e]; [|discriminate].
    destruct (truthy name); [now exists name, b|].
    destruct (available_models E _) as [models w1 | e w1]; [|discriminate].
    destruct (len models) as [n|e]; [|discriminate].
    destruct (Nat.ltb 1 n); [|discriminate].
    now exists models, b. }
  destruct Hclaim as (m & b & Hclaim).
  pose proof (claim_frame str E (assigned H m name b key kwargs g logs)) as [Hsame _].
  pose proof (claim_globals str E (assigned H m name b key kwargs g logs)) as Hg.
  rewrite Hclaim in Hsame, Hg. cbn [world_of] in Hsame, Hg.
  destruct Hsame as (Ho & Hp & Hk & _).
  cbn [assigned self original_model parameters api_key] in Ho, Hp, Hk.
  repeat split.
  - rewrite Hk. unfold key_of. destruct key; [reflexivity|].
    now destruct (getenv H "OPENAI_API_KEY").
  - rewrite Hg, claimed_global_lookup, Hk. reflexivity.
  - exact Hp.
  - exact Ho.
Qed.

Lemma init_resolves_key_witness :
  let w' := after_claim
              (mk_world (mk_openai_api (VStr "gpt-3.5-turbo") (VStr "gpt-3.5-turbo") ∅
                                       "sk-explicit" "https://api.openai.com/v1") ∅ []) in
  api_key (self w') = "sk-explicit"
  /\ openai_api_global w' !! "api_key" = Some (VStr (api_key (self w')))
  /\ parameters (self w') = ∅
  /\ original_model (self w') = VStr "gpt-3.5-turbo".
Proof.
  cbv zeta.
  apply (init_resolves_key plain_str (endpoint VNone failing_api) bare_host
           (VStr "gpt-3.5-turbo") None (Some "sk-explicit") ∅ ∅ []).
  reflexivity.
Defined.






End llm_wrapper_more.
